(** * Bookstore API comparison: store, REST and GraphQL strategies

    A shallow embedding of the Python sources under [src/api_comparison]:
    - [shared/models.py]    : the four dataclasses,
    - [shared/database.py]  : [MockDatabase] with its seed data,
    - [rest_api/app.py]     : the two creation handlers for books and orders,
    - [graphql_api/schema.py] : the [Query] and [Mutation] resolvers,
    - [client_examples/*.py]: the two metric-collecting clients.

    Python [int] is [Z], [float] is binary64 ([PrimFloat.float]), [str] is
    [string], a list is [list], [Optional[T]] is [option T].  A raised
    exception is the [Raise] branch of [result].  Calls to [print] have no
    part in any result and are left out. *)

From Stdlib Require Import ZArith List String Ascii Bool Lia Floats.
From Stdlib Require Import DecimalString.
Import ListNotations.
Local Open Scope string_scope.
Local Open Scope Z_scope.

Set Warnings "-inexact-float,-register-all".

(** ** Python run-time notions shared by all modules *)

Inductive exn : Type :=
| ValueError (msg : string)
| KeyError (key : string)
| TypeError
| AttributeError.

(** [str(e)] as a handler prints it.  Only [ValueError] reaches one; the
    other two names stand for messages no handler ever shows. *)
Definition str_of_exn (e : exn) : string :=
  match e with
  | ValueError msg => msg
  | KeyError key => "'" ++ key ++ "'"
  | TypeError => "TypeError"
  | AttributeError => "AttributeError"
  end.

Inductive result (A : Type) : Type :=
| Ok (a : A)
| Raise (e : exn).
Arguments Ok {A} a.
Arguments Raise {A} e.

Definition bind {A B : Type} (r : result A) (k : A -> result B) : result B :=
  match r with
  | Ok a => k a
  | Raise e => Raise e
  end.

Notation "x <- c1 ;; c2" := (bind c1 (fun x => c2))
  (at level 100, c1 at next level, right associativity).

(** [max(iterable)]: raises [ValueError] on an empty iterable (the message
    is the one of CPython up to 3.11). *)
Definition py_max (xs : list Z) : result Z :=
  match xs with
  | [] => Raise (ValueError "max() arg is an empty sequence")
  | x :: rest => Ok (fold_left Z.max rest x)
  end.

(** [xs[:n]] for an integer [n]: a negative bound counts from the end. *)
Definition py_slice_to {A : Type} (xs : list A) (n : Z) : list A :=
  if 0 <=? n then firstn (Z.to_nat n) xs
  else firstn (List.length xs - Z.to_nat (- n))%nat xs.

(** A string all of whose characters are ASCII (below 128). *)
Fixpoint is_ascii (s : string) : bool :=
  match s with
  | EmptyString => true
  | String c rest => (nat_of_ascii c <? 128)%nat && is_ascii rest
  end.

(** [str.lower()] of an ASCII string: [A]..[Z] become [a]..[z] and every
    other ASCII character stays.  Python also folds the cased letters
    beyond ASCII, which this function leaves as they are: it stands for
    [str.lower()] on the strings that satisfy [is_ascii] and on no others.
    The properties below that say what matching without regard to case
    amounts to take [is_ascii] as a hypothesis or are about ASCII
    constants. *)
Definition lower_ascii (c : ascii) : ascii :=
  let n := nat_of_ascii c in
  if ((65 <=? n) && (n <=? 90))%nat then ascii_of_nat (n + 32) else c.

Fixpoint lower (s : string) : string :=
  match s with
  | EmptyString => EmptyString
  | String c rest => String (lower_ascii c) (lower rest)
  end.

(** [needle in haystack] for two strings. *)
Fixpoint contains (needle haystack : string) : bool :=
  if prefix needle haystack then true
  else match haystack with
       | EmptyString => false
       | String _ rest => contains needle rest
       end.

(** [str(n)] for an integer. *)
Definition str_of_int (n : Z) : string := NilZero.string_of_int (Z.to_int n).

(** [datetime(y, m, d)]; the clock reading of [datetime.now()] is passed to
    the creators as an explicit argument. *)
Record datetime : Type := mk_datetime { year : Z; month : Z; day : Z }.

(** ** shared/models.py *)

Module Author.
Record t : Type := mk
  { id : Z; name : string; bio : string; birth_year : Z }.
End Author.

Module Book.
Record t : Type := mk
  { id : Z; title : string; author_id : Z; price : float;
    genre : string; published_year : Z; isbn : string }.
End Book.

Module Customer.
Record t : Type := mk
  { id : Z; name : string; email : string; registration_date : datetime }.
End Customer.

Module Order.
Record t : Type := mk
  { id : Z; customer_id : Z; book_ids : list Z;
    total_amount : float; order_date : datetime }.
End Order.

(** ** shared/database.py *)

Module MockDatabase.

Record t : Type := mk
  { authors : list Author.t;
    books : list Book.t;
    customers : list Customer.t;
    orders : list Order.t }.

(** [_init_data] *)
Definition _init_data : t :=
  {| authors :=
       [ Author.mk 1 "J.K. Rowling"
           "British author best known for Harry Potter series" 1965;
         Author.mk 2 "George Orwell" "English novelist and journalist" 1903;
         Author.mk 3 "Jane Austen" "English novelist of romantic fiction" 1775;
         Author.mk 4 "Stephen King"
           "American author of horror and supernatural fiction" 1947;
         Author.mk 5 "Agatha Christie"
           "English writer known for detective novels" 1890 ];
     books :=
       [ Book.mk 1 "Harry Potter and the Philosopher's Stone" 1 29.99%float
           "Fantasy" 1997 "978-0439708180";
         Book.mk 2 "Harry Potter and the Chamber of Secrets" 1 32.99%float
           "Fantasy" 1998 "978-0439064873";
         Book.mk 3 "1984" 2 19.99%float "Dystopian Fiction" 1949
           "978-0451524935";
         Book.mk 4 "Animal Farm" 2 15.99%float "Allegorical Fiction" 1945
           "978-0451526342";
         Book.mk 5 "Pride and Prejudice" 3 22.99%float "Romance" 1813
           "978-0141439518";
         Book.mk 6 "The Shining" 4 24.99%float "Horror" 1977 "978-0307743657";
         Book.mk 7 "It" 4 27.99%float "Horror" 1986 "978-1501142970";
         Book.mk 8 "Murder on the Orient Express" 5 18.99%float "Mystery"
           1934 "978-0062693662";
         Book.mk 9 "And Then There Were None" 5 16.99%float "Mystery" 1939
           "978-0062073488" ];
     customers :=
       [ Customer.mk 1 "Alice Johnson" "alice@example.com"
           (mk_datetime 2023 1 15);
         Customer.mk 2 "Bob Smith" "bob@example.com" (mk_datetime 2023 3 22);
         Customer.mk 3 "Carol Davis" "carol@example.com"
           (mk_datetime 2023 5 10);
         Customer.mk 4 "David Wilson" "david@example.com"
           (mk_datetime 2023 7 8) ];
     orders :=
       [ Order.mk 1 1 [1; 2] 62.98%float (mk_datetime 2023 6 1);
         Order.mk 2 1 [3] 19.99%float (mk_datetime 2023 6 15);
         Order.mk 3 2 [5; 8] 41.98%float (mk_datetime 2023 7 3);
         Order.mk 4 3 [6; 7] 52.98%float (mk_datetime 2023 8 12);
         Order.mk 5 4 [4; 9] 32.98%float (mk_datetime 2023 8 20) ] |}.

(** [next((x for x in xs if x.id == i), None)] is [List.find]. *)
Definition get_author_by_id (db : t) (author_id : Z) : option Author.t :=
  find (fun author => Author.id author =? author_id) (authors db).

Definition get_all_books (db : t) : list Book.t := books db.

Definition get_book_by_id (db : t) (book_id : Z) : option Book.t :=
  find (fun book => Book.id book =? book_id) (books db).

Definition get_books_by_author (db : t) (author_id : Z) : list Book.t :=
  filter (fun book => Book.author_id book =? author_id) (books db).

Definition get_books_by_genre (db : t) (genre : string) : list Book.t :=
  filter (fun book => String.eqb (lower (Book.genre book)) (lower genre))
    (books db).

Definition get_customer_by_id (db : t) (customer_id : Z)
  : option Customer.t :=
  find (fun customer => Customer.id customer =? customer_id) (customers db).

Definition get_order_by_id (db : t) (order_id : Z) : option Order.t :=
  find (fun order => Order.id order =? order_id) (orders db).

Definition get_orders_by_customer (db : t) (customer_id : Z)
  : list Order.t :=
  filter (fun order => Order.customer_id order =? customer_id) (orders db).

Definition get_author_for_book (db : t) (book : Book.t) : option Author.t :=
  get_author_by_id db (Book.author_id book).

Definition get_customer_for_order (db : t) (order : Order.t)
  : option Customer.t :=
  get_customer_by_id db (Order.customer_id order).

(** The comprehension looks every id up twice: once in the [if] (a
    dataclass instance is always truthy, so the test is "is not None") and
    once for the element. *)
Fixpoint books_for_ids (db : t) (ids : list Z) : list Book.t :=
  match ids with
  | [] => []
  | book_id :: rest =>
      match get_book_by_id db book_id with
      | Some _ =>
          match get_book_by_id db book_id with
          | Some book => book :: books_for_ids db rest
          | None => books_for_ids db rest
          end
      | None => books_for_ids db rest
      end
  end.

Definition get_books_for_order (db : t) (order : Order.t) : list Book.t :=
  books_for_ids db (Order.book_ids order).

Definition create_book (db : t) (title : string) (author_id : Z)
    (price : float) (genre : string) (published_year : Z) (isbn : string)
  : result (Book.t * t) :=
  m <- py_max (map Book.id (books db)) ;;
  let new_id := m + 1 in
  let new_book :=
    Book.mk new_id title author_id price genre published_year isbn in
  Ok (new_book,
      {| authors := authors db; books := books db ++ [new_book];
         customers := customers db; orders := orders db |}).

Definition create_customer (db : t) (name email : string) (now : datetime)
  : result (Customer.t * t) :=
  m <- py_max (map Customer.id (customers db)) ;;
  let new_id := m + 1 in
  let new_customer := Customer.mk new_id name email now in
  Ok (new_customer,
      {| authors := authors db; books := books db;
         customers := customers db ++ [new_customer];
         orders := orders db |}).

(** The [for] loop that accumulates [total]. *)
Definition order_total (db : t) (book_ids : list Z) : float :=
  fold_left
    (fun total book_id =>
       match get_book_by_id db book_id with
       | Some book => (total + Book.price book)%float
       | None => total
       end)
    book_ids 0%float.

Definition create_order (db : t) (customer_id : Z) (book_ids : list Z)
    (now : datetime) : result (Order.t * t) :=
  m <- py_max (map Order.id (orders db)) ;;
  let new_id := m + 1 in
  let total := order_total db book_ids in
  let new_order := Order.mk new_id customer_id book_ids total now in
  Ok (new_order,
      {| authors := authors db; books := books db;
         customers := customers db;
         orders := orders db ++ [new_order] |}).

End MockDatabase.

(** ** rest_api/app.py *)

Module RestApp.

(** [request.get_json()] for [POST /api/orders]: a key that is absent from
    the body is [None].  The record covers the bodies in which
    [customer_id], when present, is an integer and [book_ids], when
    present, is a list of integers.  A body of another shape is not
    described by it: with [book_ids] null, for one, the loop over the ids
    raises outside the [try] and the framework answers 500. *)
Record order_json : Type := mk_order_json
  { customer_id : option Z; book_ids : option (list Z) }.

(** [request.get_json()] for [POST /api/books].  [price] and
    [published_year] are taken as already numeric, so that [float(..)] and
    [int(..)] return them unchanged. *)
Record book_json : Type := mk_book_json
  { title : option string; author_id : option Z; price : option float;
    genre : option string; published_year : option Z; isbn : option string }.

(** What [jsonify] is given: an error dictionary, [order.to_dict()] or
    [book.to_dict()]. *)
Inductive body : Type :=
| ErrorBody (error : string)
| OrderBody (order : Order.t)
| BookBody (book : Book.t).

Definition response : Type := (body * Z)%type.

(** The loop "Validate all books exist": the first id that does not
    resolve, if any. *)
Definition first_unknown_book (db : MockDatabase.t) (book_ids : list Z)
  : option Z :=
  find (fun book_id =>
          match MockDatabase.get_book_by_id db book_id with
          | Some _ => false
          | None => true
          end) book_ids.

Definition create_order (db : MockDatabase.t) (data : order_json)
    (now : datetime) : response * MockDatabase.t :=
  match customer_id data with
  | None => ((ErrorBody "Missing required field: customer_id", 400), db)
  | Some cid =>
      match book_ids data with
      | None => ((ErrorBody "Missing required field: book_ids", 400), db)
      | Some bids =>
          match MockDatabase.get_customer_by_id db cid with
          | None => ((ErrorBody "Customer not found", 404), db)
          | Some _ =>
              match first_unknown_book db bids with
              | Some book_id =>
                  ((ErrorBody
                      ("Book with ID " ++ str_of_int book_id ++ " not found"),
                    404), db)
              | None =>
                  match MockDatabase.create_order db cid bids now with
                  | Ok (order, db') => ((OrderBody order, 201), db')
                  | Raise e => ((ErrorBody (str_of_exn e), 400), db)
                  end
              end
          end
      end
  end.

Definition create_book (db : MockDatabase.t) (data : book_json)
  : response * MockDatabase.t :=
  match title data, author_id data, price data, genre data,
        published_year data, isbn data with
  | None, _, _, _, _, _ =>
      ((ErrorBody "Missing required field: title", 400), db)
  | _, None, _, _, _, _ =>
      ((ErrorBody "Missing required field: author_id", 400), db)
  | _, _, None, _, _, _ =>
      ((ErrorBody "Missing required field: price", 400), db)
  | _, _, _, None, _, _ =>
      ((ErrorBody "Missing required field: genre", 400), db)
  | _, _, _, _, None, _ =>
      ((ErrorBody "Missing required field: published_year", 400), db)
  | _, _, _, _, _, None =>
      ((ErrorBody "Missing required field: isbn", 400), db)
  | Some t, Some a, Some p, Some g, Some y, Some i =>
      match MockDatabase.create_book db t a p g y i with
      | Ok (book, db') => ((BookBody book, 201), db')
      | Raise e => ((ErrorBody (str_of_exn e), 400), db)
      end
  end.

End RestApp.

(** ** graphql_api/schema.py *)

Module Schema.

(** The strawberry types.  A resolver builds them by keyword unpacking of
    the dictionary [d] the database returns, one key per field, so a
    dictionary and the object built from it carry the same data and are
    identified here.  [d.get(k)] on an [Optional] field is the field. *)

Module Author.
Record t : Type := mk
  { id : Z; name : string; email : string; bio : option string;
    created_at : datetime }.
End Author.

Module Book.
Record t : Type := mk
  { id : Z; title : string; isbn : string; price : float;
    publication_date : datetime; author_id : Z;
    genre : option string; description : option string }.
End Book.

Module Customer.
Record t : Type := mk
  { id : Z; name : string; email : string; address : option string;
    phone : option string; created_at : datetime }.
End Customer.

Module OrderItem.
Record t : Type := mk { book_id : Z; quantity : Z; price : float }.
End OrderItem.

Module Order.
Record t : Type := mk
  { id : Z; customer_id : Z; order_date : datetime; total_amount : float;
    status : string; items : list OrderItem.t }.
End Order.

(** Truth value of an [Optional[int]] and of an [Optional[str]] in an
    [if]: [None], [0] and the empty string are false. *)
Definition truthy_int (x : option Z) : bool :=
  match x with
  | Some n => negb (n =? 0)
  | None => false
  end.

Definition truthy_str (x : option string) : bool :=
  match x with
  | Some s => negb (String.eqb s "")
  | None => false
  end.

(** [x == y] between an optional string and a string. *)
Definition opt_str_eqb (x : option string) (y : string) : bool :=
  match x with
  | Some s => String.eqb s y
  | None => false
  end.

(** [if limit: xs = xs[:limit]] *)
Definition apply_limit {A : Type} (limit : option Z) (xs : list A)
  : list A :=
  match limit with
  | Some n => if truthy_int limit then py_slice_to xs n else xs
  | None => xs
  end.

Section Query.

(** The readers of the [database] object the resolvers import.  Its
    module is not among the sources, so the resolvers are stated over
    any readers of these types. *)
Variable get_all_authors : list Author.t.
Variable get_all_books : list Book.t.
Variable get_books_by_author : Z -> list Book.t.
Variable get_all_customers : list Customer.t.
Variable get_all_orders : list Order.t.
Variable get_orders_by_customer : Z -> list Order.t.

Definition authors (limit : option Z) : list Author.t :=
  let authors_data := get_all_authors in
  apply_limit limit authors_data.

Definition books (limit author_id : option Z) (genre : option string)
  : list Book.t :=
  let books_data :=
    match author_id with
    | Some a =>
        if truthy_int author_id then get_books_by_author a
        else get_all_books
    | None => get_all_books
    end in
  let books_data :=
    match genre with
    | Some g =>
        if truthy_str genre
        then filter (fun book => opt_str_eqb (Book.genre book) g)
               books_data
        else books_data
    | None => books_data
    end in
  apply_limit limit books_data.

Definition customers (limit : option Z) : list Customer.t :=
  let customers_data := get_all_customers in
  apply_limit limit customers_data.

Definition orders (limit customer_id : option Z) (status : option string)
  : list Order.t :=
  let orders_data :=
    match customer_id with
    | Some c =>
        if truthy_int customer_id then get_orders_by_customer c
        else get_all_orders
    | None => get_all_orders
    end in
  let orders_data :=
    match status with
    | Some s =>
        if truthy_str status
        then filter (fun order => String.eqb (Order.status order) s)
               orders_data
        else orders_data
    | None => orders_data
    end in
  apply_limit limit orders_data.

(** The test of the [for] loop of [search_books]. *)
Definition search_match (query : string) (book : Book.t) : bool :=
  contains (lower query) (lower (Book.title book))
  || match Book.description book with
     | Some d => negb (String.eqb d "") && contains (lower query) (lower d)
     | None => false
     end.

Definition search_books (query : string) (limit : option Z)
  : list Book.t :=
  let all_books := get_all_books in
  let matching_books := filter (search_match query) all_books in
  apply_limit limit matching_books.

(** [limit: Optional[int] = 10] when the argument is left out. *)
Definition search_books_default (query : string) : list Book.t :=
  search_books query (Some 10).

End Query.

End Schema.

(** ** The [database] object of [graphql_api/schema.py] *)

Module Database.

(** Modelled from the spec: the store behind [schema.py], whose module is
    absent.  It owns four ordered collections, one per entity kind, of the
    dictionaries the resolvers unpack. *)
Inductive kind : Type := KAuthor | KBook | KCustomer | KOrder.

Record t : Type := mk
  { authors : list Schema.Author.t;
    books : list Schema.Book.t;
    customers : list Schema.Customer.t;
    orders : list Schema.Order.t }.

Definition entity (k : kind) : Type :=
  match k with
  | KAuthor => Schema.Author.t
  | KBook => Schema.Book.t
  | KCustomer => Schema.Customer.t
  | KOrder => Schema.Order.t
  end.

Definition entity_id (k : kind) : entity k -> Z :=
  match k with
  | KAuthor => Schema.Author.id
  | KBook => Schema.Book.id
  | KCustomer => Schema.Customer.id
  | KOrder => Schema.Order.id
  end.

Definition collection (k : kind) (db : t) : list (entity k) :=
  match k with
  | KAuthor => authors db
  | KBook => books db
  | KCustomer => customers db
  | KOrder => orders db
  end.

Definition set_collection (k : kind) : list (entity k) -> t -> t :=
  match k with
  | KAuthor => fun l db =>
      {| authors := l; books := books db; customers := customers db;
         orders := orders db |}
  | KBook => fun l db =>
      {| authors := authors db; books := l; customers := customers db;
         orders := orders db |}
  | KCustomer => fun l db =>
      {| authors := authors db; books := books db; customers := l;
         orders := orders db |}
  | KOrder => fun l db =>
      {| authors := authors db; books := books db;
         customers := customers db; orders := l |}
  end.

(** Modelled from the spec: "deleted by id removal from the collection".
    The first entity with this id leaves the sequence; the others keep
    their order. *)
Fixpoint remove_by_id {E : Type} (id_of : E -> Z) (id : Z) (l : list E)
  : list E :=
  match l with
  | [] => []
  | e :: rest =>
      if id_of e =? id then rest else e :: remove_by_id id_of id rest
  end.

(** Modelled from the spec: [database.delete_author], [delete_book] and
    [delete_customer], called by the [Mutation] resolvers, are not among
    the sources.  The spec gives [delete(kind, id)]: removes the matching
    entity of the collection of that kind, returns boolean success, no
    cascading side effects; an unknown id returns false and leaves the
    collection unchanged. *)
Definition delete (k : kind) (id : Z) (db : t) : bool * t :=
  if existsb (fun e => entity_id k e =? id) (collection k db)
  then (true, set_collection k (remove_by_id (entity_id k) id
                                  (collection k db)) db)
  else (false, db).

End Database.

Module Mutation.

Definition delete_author (db : Database.t) (id : Z) : bool * Database.t :=
  Database.delete Database.KAuthor id db.

Definition delete_book (db : Database.t) (id : Z) : bool * Database.t :=
  Database.delete Database.KBook id db.

Definition delete_customer (db : Database.t) (id : Z) : bool * Database.t :=
  Database.delete Database.KCustomer id db.

End Mutation.

(** ** JSON values and the HTTP session of the two clients *)

Inductive json_value : Type :=
| JNull
| JBool (b : bool)
| JInt (n : Z)
| JFloat (x : float)
| JStr (s : string)
| JList (elements : list json_value)
| JDict (fields : list (string * json_value)).

(** The operations the clients apply to decoded JSON, with the exceptions
    Python raises when the value has another shape. *)
Module Py.

Fixpoint dict_get (d : list (string * json_value)) (key : string)
  : option json_value :=
  match d with
  | [] => None
  | (k, v) :: rest => if String.eqb k key then Some v else dict_get rest key
  end.

(** [d[key] = v]: an existing key keeps its place, a new one goes last. *)
Fixpoint dict_set (d : list (string * json_value)) (key : string)
    (v : json_value) : list (string * json_value) :=
  match d with
  | [] => [(key, v)]
  | (k, w) :: rest =>
      if String.eqb k key then (k, v) :: rest
      else (k, w) :: dict_set rest key v
  end.

(** [x[key]] for a string key. *)
Definition getitem (x : json_value) (key : string) : result json_value :=
  match x with
  | JDict d =>
      match dict_get d key with
      | Some v => Ok v
      | None => Raise (KeyError key)
      end
  | _ => Raise TypeError
  end.

(** [x[key] = v] for a string key; the updated [x]. *)
Definition setitem (x : json_value) (key : string) (v : json_value)
  : result json_value :=
  match x with
  | JDict d => Ok (JDict (dict_set d key v))
  | _ => Raise TypeError
  end.

(** [x.copy()]: a shallow copy of a dictionary or a list. *)
Definition copy (x : json_value) : result json_value :=
  match x with
  | JDict d => Ok (JDict d)
  | JList l => Ok (JList l)
  | _ => Raise AttributeError
  end.

Fixpoint chars (s : string) : list json_value :=
  match s with
  | EmptyString => []
  | String c rest => JStr (String c EmptyString) :: chars rest
  end.

(** [for e in x]: the elements of a list, the keys of a dictionary, the
    characters of a string. *)
Definition iter (x : json_value) : result (list json_value) :=
  match x with
  | JList l => Ok l
  | JDict d => Ok (map (fun kv => JStr (fst kv)) d)
  | JStr s => Ok (chars s)
  | _ => Raise TypeError
  end.

Definition len (s : string) : Z := Z.of_nat (String.length s).

End Py.

Module Request.
Record t : Type := mk
  { method : string; url : string; json : option json_value }.
End Request.

Module Response.
(** [content] is the raw body; [json] is what [response.json()] gives. *)
Record t : Type := mk { content : string; json : result json_value }.
End Response.

(** A computation of a client: it may raise, and it extends the sequence of
    requests that crossed the transport boundary. *)
Definition session (A : Type) : Type :=
  list Request.t -> result A * list Request.t.

Definition sret {A : Type} (a : A) : session A := fun log => (Ok a, log).

Definition sbind {A B : Type} (m : session A) (k : A -> session B)
  : session B :=
  fun log =>
    match m log with
    | (Ok a, log') => k a log'
    | (Raise e, log') => (Raise e, log')
    end.

Definition lift {A : Type} (r : result A) : session A := fun log => (r, log).

Notation "x <~ c1 ;; c2" := (sbind c1 (fun x => c2))
  (at level 100, c1 at next level, right associativity).

Section Transport.

(** The server behind [requests.Session]: any function from requests to
    responses. *)
Variable server : Request.t -> Response.t.

Definition send (req : Request.t) : session Response.t :=
  fun log => (Ok (server req), (log ++ [req])%list).

Definition session_get (url : string) : session Response.t :=
  send (Request.mk "GET" url None).

Definition session_post (url : string) (payload : json_value)
  : session Response.t :=
  send (Request.mk "POST" url (Some payload)).

End Transport.

(** ** client_examples/graphql_client.py *)

Module GraphQLBookstoreClient.

Definition author_with_books_query : string :=
  "query GetAuthorWithBooks($authorId: Int!) {
     author(id: $authorId) { id name email bio
       books { id title price genre publicationDate } } }".

Definition customer_order_summary_query : string :=
  "query GetCustomerOrderSummary($customerId: Int!) {
     customer(id: $customerId) { id name email
       orders { id orderDate totalAmount status
         items { quantity price book { id title price } } } } }".

Section Client.

Variable server : Request.t -> Response.t.
Variable base_url : string.

(** The two lines that complete the bundle of every method. *)
Definition with_metrics (response : Response.t) : session json_value :=
  result <~ lift (Response.json response) ;;
  result <~ lift (Py.setitem result "total_requests" (JInt 1)) ;;
  result <~ lift (Py.setitem result "total_bytes"
                    (JInt (Py.len (Response.content response)))) ;;
  sret result.

Definition get_author_with_books (author_id : Z) : session json_value :=
  response <~ session_post server base_url
    (JDict [("query", JStr author_with_books_query);
            ("variables", JDict [("authorId", JInt author_id)])]) ;;
  with_metrics response.

Definition get_customer_order_summary (customer_id : Z)
  : session json_value :=
  response <~ session_post server base_url
    (JDict [("query", JStr customer_order_summary_query);
            ("variables", JDict [("customerId", JInt customer_id)])]) ;;
  with_metrics response.

End Client.

End GraphQLBookstoreClient.

(** ** client_examples/rest_client.py *)

Module RESTBookstoreClient.

(** The two running totals of [get_customer_order_summary]. *)
Record totals : Type := mk_totals { request_count : Z; total_bytes : Z }.

Definition count (c : totals) (response : Response.t) : totals :=
  {| request_count := request_count c + 1;
     total_bytes := total_bytes c + Py.len (Response.content response) |}.

Section Client.

Variable server : Request.t -> Response.t.
Variable base_url : string.

(** How an f-string prints a decoded JSON value (the built-in [str]). *)
Variable format : json_value -> string.

(** The inner loop, [for item in order["items"]]. *)
Fixpoint enrich_items (items enriched_items : list json_value)
    (c : totals) : session (list json_value * totals) :=
  match items with
  | [] => sret (enriched_items, c)
  | item :: rest =>
      book_id <~ lift (Py.getitem item "book_id") ;;
      book_response <~
        session_get server (base_url ++ "/books/" ++ format book_id) ;;
      book_data <~ lift (Response.json book_response) ;;
      let c := count c book_response in
      enriched_item <~ lift (Py.copy item) ;;
      enriched_item <~ lift (Py.setitem enriched_item "book" book_data) ;;
      enrich_items rest (enriched_items ++ [enriched_item])%list c
  end.

(** The outer loop, [for order in orders_data]. *)
Fixpoint enrich_orders (orders enriched_orders : list json_value)
    (c : totals) : session (list json_value * totals) :=
  match orders with
  | [] => sret (enriched_orders, c)
  | order :: rest =>
      enriched_order <~ lift (Py.copy order) ;;
      order_items <~ lift (Py.getitem order "items") ;;
      items <~ lift (Py.iter order_items) ;;
      r <~ enrich_items items [] c ;;
      let '(enriched_items, c) := r in
      enriched_order <~
        lift (Py.setitem enriched_order "items" (JList enriched_items)) ;;
      enrich_orders rest (enriched_orders ++ [enriched_order])%list c
  end.

Definition get_customer_order_summary (customer_id : Z)
  : session json_value :=
  let c := {| request_count := 0; total_bytes := 0 |} in
  customer_response <~
    session_get server
      (base_url ++ "/customers/" ++ str_of_int customer_id) ;;
  customer_data <~ lift (Response.json customer_response) ;;
  let c := count c customer_response in
  orders_response <~
    session_get server
      (base_url ++ "/orders?customer_id=" ++ str_of_int customer_id) ;;
  orders_data <~ lift (Response.json orders_response) ;;
  let c := count c orders_response in
  orders <~ lift (Py.iter orders_data) ;;
  r <~ enrich_orders orders [] c ;;
  let '(enriched_orders, c) := r in
  sret (JDict [("customer", customer_data);
               ("orders", JList enriched_orders);
               ("total_requests", JInt (request_count c));
               ("total_bytes", JInt (total_bytes c))]).

End Client.

(** The [items] of one decoded order and the [book_id] values they hold. *)
Definition items_of (order : json_value) : list json_value :=
  match order with
  | JDict d =>
      match Py.dict_get d "items" with
      | Some (JList items) => items
      | _ => []
      end
  | _ => []
  end.

Definition book_ref (item : json_value) : list Z :=
  match item with
  | JDict d =>
      match Py.dict_get d "book_id" with
      | Some (JInt n) => [n]
      | _ => []
      end
  | _ => []
  end.

Definition all_items (orders : list json_value) : list json_value :=
  flat_map items_of orders.

Definition book_refs (orders : list json_value) : list Z :=
  flat_map book_ref (all_items orders).

Definition distinct_book_refs (orders : list json_value) : Z :=
  Z.of_nat (List.length (nodup Z.eq_dec (book_refs orders))).

(** The shape the loops index without raising: a list of dictionaries,
    each with a list [items] of dictionaries holding a [book_id]. *)
Definition item_ok (item : json_value) : bool :=
  match item with
  | JDict d =>
      match Py.dict_get d "book_id" with
      | Some _ => true
      | None => false
      end
  | _ => false
  end.

Definition order_ok (order : json_value) : bool :=
  match order with
  | JDict d =>
      match Py.dict_get d "items" with
      | Some (JList items) => forallb item_ok items
      | _ => false
      end
  | _ => false
  end.

Definition orders_ok (orders : list json_value) : bool :=
  forallb order_ok orders.

End RESTBookstoreClient.

(** * Properties *)

(** ** The store *)

Module StoreFacts.

Import MockDatabase.

(** [m] is the greatest element of [ids]. *)
Definition is_max (m : Z) (ids : list Z) : Prop :=
  In m ids /\ forall x, In x ids -> x <= m.

Lemma fold_max_ge_init (l : list Z) (a : Z) : a <= fold_left Z.max l a.
Proof.
  revert a; induction l as [|y l IH]; intros a; simpl; [lia|].
  specialize (IH (Z.max a y)); lia.
Qed.

Lemma fold_max_is_max (l : list Z) (a : Z) :
  is_max (fold_left Z.max l a) (a :: l).
Proof.
  revert a; induction l as [|y l IH]; intros a; simpl.
  - split; [now left|]. intros x [<-|[]]; lia.
  - destruct (IH (Z.max a y)) as [Hin Hub]. split.
    + destruct Hin as [Heq|Hin].
      * destruct (Z.max_spec a y) as [[_ E]|[_ E]]; rewrite E in *.
        -- right; now left.
        -- now left.
      * right; now right.
    + intros x [<-|[<-|Hx]].
      * pose proof (fold_max_ge_init l (Z.max a y)); lia.
      * pose proof (fold_max_ge_init l (Z.max a y)); lia.
      * apply Hub; now right.
Qed.

Lemma py_max_nonempty (ids : list Z) :
  ids <> [] -> exists m, py_max ids = Ok m /\ is_max m ids.
Proof.
  destruct ids as [|x l]; [congruence|]. intros _.
  exists (fold_left Z.max l x). split; [reflexivity|apply fold_max_is_max].
Qed.

Lemma is_max_unique (m m' : Z) (ids : list Z) :
  is_max m ids -> is_max m' ids -> m = m'.
Proof.
  intros [Hin Hub] [Hin' Hub']. apply Hub' in Hin. apply Hub in Hin'. lia.
Qed.

Lemma is_max_snoc (m : Z) (ids : list Z) :
  is_max m ids -> is_max (m + 1) (ids ++ [m + 1])%list.
Proof.
  intros [Hin Hub]. split.
  - apply in_or_app; right; now left.
  - intros x Hx. apply in_app_or in Hx. destruct Hx as [Hx|[<-|[]]].
    + apply Hub in Hx; lia.
    + lia.
Qed.

(** The id rule shared by the three creators. *)
Lemma py_max_snoc (m : Z) (ids : list Z) :
  is_max m ids -> py_max (ids ++ [m + 1])%list = Ok (m + 1).
Proof.
  intros Hm. destruct (py_max_nonempty (ids ++ [m + 1])) as (m' & E & Hm').
  - destruct ids; discriminate.
  - rewrite E. f_equal.
    apply (is_max_unique _ _ _ Hm' (is_max_snoc _ _ Hm)).
Qed.

Lemma get_book_by_id_some (db : t) (i : Z) (b : Book.t) :
  get_book_by_id db i = Some b -> In b (books db) /\ Book.id b = i.
Proof.
  unfold get_book_by_id. intros H. apply find_some in H.
  destruct H as [Hin Heq]. split; [assumption|lia].
Qed.

Lemma get_book_by_id_none (db : t) (i : Z) :
  get_book_by_id db i = None <->
  existsb (fun b => Book.id b =? i) (books db) = false.
Proof.
  unfold get_book_by_id. induction (books db) as [|b l IH]; simpl.
  - tauto.
  - destruct (Book.id b =? i); simpl; [split; discriminate|exact IH].
Qed.

(** The sum the spec speaks of: prices added left to right from [0.0]. *)
Definition sum_prices (bs : list Book.t) : float :=
  fold_left (fun total b => (total + Book.price b)%float) bs 0%float.

Lemma order_total_acc (db : t) (ids : list Z) (acc : float) :
  fold_left
    (fun total book_id =>
       match get_book_by_id db book_id with
       | Some book => (total + Book.price book)%float
       | None => total
       end) ids acc
  = fold_left (fun total b => (total + Book.price b)%float)
      (books_for_ids db ids) acc.
Proof.
  revert acc; induction ids as [|i ids IH]; intros acc; simpl.
  - reflexivity.
  - destruct (get_book_by_id db i) as [b|]; simpl; apply IH.
Qed.

Lemma order_total_sum (db : t) (ids : list Z) :
  order_total db ids = sum_prices (books_for_ids db ids).
Proof. apply order_total_acc. Qed.

Lemma find_snoc_fresh {A : Type} (f : A -> bool) (l : list A) (a : A) :
  (forall x, In x l -> f x = false) -> f a = true ->
  find f (l ++ [a]) = Some a.
Proof.
  intros Hl Ha. induction l as [|x l IH]; simpl.
  - now rewrite Ha.
  - rewrite (Hl x (or_introl eq_refl)). apply IH.
    intros y Hy. apply Hl. now right.
Qed.

Lemma books_for_ids_flat_map (db : t) (ids : list Z) :
  books_for_ids db ids
  = flat_map (fun i => match get_book_by_id db i with
                       | Some b => [b]
                       | None => []
                       end) ids.
Proof.
  induction ids as [|i ids IH]; simpl; [reflexivity|].
  destruct (get_book_by_id db i); simpl; now rewrite IH.
Qed.

(** C6.  For every order, [get_books_for_order] never fails and returns a
    sequence no longer than [order.book_ids]; every book in it belongs to
    the Book collection and has an id listed in [order.book_ids]; ids that
    do not resolve are dropped, and the ids of the result are exactly the
    resolvable ids of [order.book_ids] in their original relative order. *)
Theorem get_books_for_order_drops_unresolved (db : t) (order : Order.t) :
  let result := get_books_for_order db order in
  (List.length result <= List.length (Order.book_ids order))%nat
  /\ (forall book, In book result ->
        In book (books db) /\ In (Book.id book) (Order.book_ids order))
  /\ map Book.id result
     = filter (fun i => existsb (fun b => Book.id b =? i) (books db))
         (Order.book_ids order)
  /\ (forall i, In i (Order.book_ids order) ->
        get_book_by_id db i = None -> ~ In i (map Book.id result)).
Proof.
  unfold get_books_for_order. cbv zeta.
  induction (Order.book_ids order) as [|i ids IH]; simpl.
  - split; [lia|]. split; [contradiction|]. split; [reflexivity|].
    intros i [].
  - destruct IH as (Hlen & Hin & Hmap & Hdrop).
    destruct (get_book_by_id db i) as [b|] eqn:E.
    + destruct (get_book_by_id_some _ _ _ E) as [Hb Hid].
      assert (Hex : existsb (fun b0 => Book.id b0 =? i) (books db) = true).
      { destruct (existsb _ (books db)) eqn:X; [reflexivity|].
        apply get_book_by_id_none in X. congruence. }
      rewrite Hex. simpl. split; [lia|]. split; [|split].
      * intros book [<-|H].
        -- split; [assumption|now left].
        -- split; [now apply Hin|right; now apply Hin].
      * now rewrite Hid, Hmap.
      * intros j [<-|Hj] Hnone; [congruence|].
        intros [Hj'|Hj']; [|now apply (Hdrop j Hj Hnone)].
        subst j. rewrite Hid in Hnone. congruence.
    + pose proof (proj1 (get_book_by_id_none db i) E) as Hex.
      rewrite Hex. split; [lia|]. split; [|split].
      * intros book H. split; [now apply Hin|right; now apply Hin].
      * exact Hmap.
      * intros j [<-|Hj] Hnone Hj'.
        -- apply in_map_iff in Hj'. destruct Hj' as (b & Hb & Hbin).
           apply Hin in Hbin. destruct Hbin as [Hbin _].
           assert (X : existsb (fun b0 => Book.id b0 =? i) (books db) = true).
           { apply existsb_exists. exists b. split; [assumption|lia]. }
           congruence.
        -- now apply (Hdrop j Hj Hnone).
Qed.

(** [new_id] is one more than the greatest of [ids], hence above all. *)
Definition next_after (ids : list Z) (new_id : Z) : Prop :=
  is_max (new_id - 1) ids /\ forall x, In x ids -> x < new_id.

Lemma next_after_intro (m : Z) (ids : list Z) :
  is_max m ids -> next_after ids (m + 1).
Proof.
  intros Hm. split.
  - now replace (m + 1 - 1) with m by lia.
  - intros x Hx. apply Hm in Hx. lia.
Qed.

Lemma create_book_next (db : t) (title : string) (author_id : Z)
    (price : float) (genre : string) (published_year : Z) (isbn : string) :
  books db <> [] ->
  exists m,
    is_max m (map Book.id (books db))
    /\ create_book db title author_id price genre published_year isbn
       = Ok (Book.mk (m + 1) title author_id price genre published_year isbn,
             {| authors := authors db;
                books := books db
                         ++ [Book.mk (m + 1) title author_id price genre
                               published_year isbn];
                customers := customers db; orders := orders db |}).
Proof.
  intros Hne. destruct (py_max_nonempty (map Book.id (books db))) as (m & E & Hm).
  - destruct (books db); [congruence|discriminate].
  - exists m. split; [assumption|]. unfold create_book. now rewrite E.
Qed.

Lemma create_customer_next (db : t) (name email : string) (now : datetime) :
  customers db <> [] ->
  exists m,
    is_max m (map Customer.id (customers db))
    /\ create_customer db name email now
       = Ok (Customer.mk (m + 1) name email now,
             {| authors := authors db; books := books db;
                customers := customers db
                             ++ [Customer.mk (m + 1) name email now];
                orders := orders db |}).
Proof.
  intros Hne.
  destruct (py_max_nonempty (map Customer.id (customers db))) as (m & E & Hm).
  - destruct (customers db); [congruence|discriminate].
  - exists m. split; [assumption|]. unfold create_customer. now rewrite E.
Qed.

Lemma create_order_next (db : t) (customer_id : Z) (book_ids : list Z)
    (now : datetime) :
  orders db <> [] ->
  exists m,
    is_max m (map Order.id (orders db))
    /\ create_order db customer_id book_ids now
       = Ok (Order.mk (m + 1) customer_id book_ids
               (order_total db book_ids) now,
             {| authors := authors db; books := books db;
                customers := customers db;
                orders := orders db
                          ++ [Order.mk (m + 1) customer_id book_ids
                                (order_total db book_ids) now] |}).
Proof.
  intros Hne.
  destruct (py_max_nonempty (map Order.id (orders db))) as (m & E & Hm).
  - destruct (orders db); [congruence|discriminate].
  - exists m. split; [assumption|]. unfold create_order. now rewrite E.
Qed.

(** The creation that follows one with id [m + 1] computes [m + 2]. *)
Ltac second_creation Hm :=
  simpl; rewrite map_app; simpl; rewrite (py_max_snoc _ _ Hm); simpl;
  eexists; eexists; split; [reflexivity|]; simpl; lia.

(** C3 (amended).  For books, customers and orders, creating an entity in
    a non-empty collection succeeds, appends it, and assigns it
    id = (max existing id) + 1, which exceeds every id then present; a
    second creation right after it gets the next id, so two sequential
    creations yield strictly increasing ids. *)
Theorem create_assigns_max_plus_one (db : t) :
  (books db <> [] ->
   forall title author_id price genre published_year isbn,
   exists b db',
     create_book db title author_id price genre published_year isbn
     = Ok (b, db')
     /\ next_after (map Book.id (books db)) (Book.id b)
     /\ books db' = (books db ++ [b])%list
     /\ forall title2 author_id2 price2 genre2 published_year2 isbn2,
        exists b2 db2,
          create_book db' title2 author_id2 price2 genre2 published_year2
            isbn2 = Ok (b2, db2)
          /\ Book.id b2 = Book.id b + 1 /\ Book.id b < Book.id b2)
  /\ (customers db <> [] ->
      forall name email now,
      exists c db',
        create_customer db name email now = Ok (c, db')
        /\ next_after (map Customer.id (customers db)) (Customer.id c)
        /\ customers db' = (customers db ++ [c])%list
        /\ forall name2 email2 now2,
           exists c2 db2,
             create_customer db' name2 email2 now2 = Ok (c2, db2)
             /\ Customer.id c2 = Customer.id c + 1
             /\ Customer.id c < Customer.id c2)
  /\ (orders db <> [] ->
      forall customer_id book_ids now,
      exists o db',
        create_order db customer_id book_ids now = Ok (o, db')
        /\ next_after (map Order.id (orders db)) (Order.id o)
        /\ orders db' = (orders db ++ [o])%list
        /\ forall customer_id2 book_ids2 now2,
           exists o2 db2,
             create_order db' customer_id2 book_ids2 now2 = Ok (o2, db2)
             /\ Order.id o2 = Order.id o + 1 /\ Order.id o < Order.id o2).
Proof.
  split; [|split].
  - intros Hne title author_id price genre published_year isbn.
    destruct (create_book_next db title author_id price genre published_year
                isbn Hne) as (m & Hm & E).
    eexists; eexists. split; [exact E|]. simpl.
    split; [now apply next_after_intro|]. split; [reflexivity|].
    intros title2 author_id2 price2 genre2 published_year2 isbn2.
    unfold create_book. second_creation Hm.
  - intros Hne name email now.
    destruct (create_customer_next db name email now Hne) as (m & Hm & E).
    eexists; eexists. split; [exact E|]. simpl.
    split; [now apply next_after_intro|]. split; [reflexivity|].
    intros name2 email2 now2.
    unfold create_customer. second_creation Hm.
  - intros Hne customer_id book_ids now.
    destruct (create_order_next db customer_id book_ids now Hne)
      as (m & Hm & E).
    eexists; eexists. split; [exact E|]. simpl.
    split; [now apply next_after_intro|]. split; [reflexivity|].
    intros customer_id2 book_ids2 now2.
    unfold create_order. second_creation Hm.
Qed.

Lemma create_assigns_max_plus_one_witness :
  (books _init_data <> [] /\ customers _init_data <> []
   /\ orders _init_data <> [])
  /\ (exists b db',
        create_book _init_data "Emma" 3 21.5%float "Romance" 1815
          "978-0141439587" = Ok (b, db')
        /\ next_after (map Book.id (books _init_data)) (Book.id b))
  /\ (exists c db',
        create_customer _init_data "Eve Stone" "eve@example.com"
          (mk_datetime 2023 9 1) = Ok (c, db')
        /\ next_after (map Customer.id (customers _init_data))
             (Customer.id c))
  /\ (exists o db',
        create_order _init_data 2 [3; 4] (mk_datetime 2023 9 1)
        = Ok (o, db')
        /\ next_after (map Order.id (orders _init_data)) (Order.id o)).
Proof.
  assert (Hb : books _init_data <> []) by discriminate.
  assert (Hc : customers _init_data <> []) by discriminate.
  assert (Ho : orders _init_data <> []) by discriminate.
  split; [repeat split; assumption|].
  destruct (create_assigns_max_plus_one _init_data) as (Tb & Tc & To).
  split; [|split].
  - destruct (Tb Hb "Emma" 3 21.5%float "Romance" 1815 "978-0141439587")
      as (b & db' & E & Hn & _).
    exists b, db'. split; assumption.
  - destruct (Tc Hc "Eve Stone" "eve@example.com" (mk_datetime 2023 9 1))
      as (c & db' & E & Hn & _).
    exists c, db'. split; assumption.
  - destruct (To Ho 2 [3; 4] (mk_datetime 2023 9 1))
      as (o & db' & E & Hn & _).
    exists o, db'. split; assumption.
Defined.

(** C3 as stated fails twice.  On an empty collection [max] raises, so no
    id 1 is assigned; and once the book holding the greatest id (9 in the
    seed data) has left the collection, the next book gets id 9 again. *)
Lemma create_id_counterexample :
  create_book
    {| authors := authors _init_data; books := [];
       customers := customers _init_data; orders := orders _init_data |}
    "Emma" 3 21.5%float "Romance" 1815 "978-0141439587"
  = Raise (ValueError "max() arg is an empty sequence")
  /\ In 9 (map Book.id (books _init_data))
  /\ exists b db',
       create_book
         {| authors := authors _init_data;
            books := Database.remove_by_id Book.id 9 (books _init_data);
            customers := customers _init_data;
            orders := orders _init_data |}
         "Emma" 3 21.5%float "Romance" 1815 "978-0141439587" = Ok (b, db')
       /\ Book.id b = 9.
Proof.
  split; [reflexivity|]. split; [simpl; tauto|].
  eexists; eexists. split; [vm_compute; reflexivity|reflexivity].
Qed.

(** C5 (amended).  The order built by [create_order] carries as
    [total_amount] the binary64 sum, accumulated left to right from 0.0,
    of the prices of the books its [book_ids] resolve to at that moment;
    the order is stored with that value and looking it up gives the same
    order whatever the Book collection becomes afterwards.  For the seed
    books 1 and 2 (29.99 and 32.99) that sum is 62.980000000000004. *)
Theorem create_order_total_is_snapshot (db : t) (customer_id : Z)
    (book_ids : list Z) (now : datetime) :
  (orders db <> [] ->
   exists o db',
     create_order db customer_id book_ids now = Ok (o, db')
     /\ Order.total_amount o = sum_prices (get_books_for_order db o)
     /\ get_order_by_id db' (Order.id o) = Some o
     /\ forall books',
          get_order_by_id
            {| authors := authors db'; books := books';
               customers := customers db'; orders := orders db' |}
            (Order.id o) = Some o)
  /\ exists o1 db1,
       create_order _init_data customer_id [1; 2] now = Ok (o1, db1)
       /\ Order.total_amount o1 = 62.980000000000004%float.
Proof.
  split.
  - intros Hne.
    destruct (create_order_next db customer_id book_ids now Hne)
      as (m & Hm & E).
    eexists; eexists. split; [exact E|].
    assert (Hfind : forall os,
               os = orders db ->
               find (fun order => Order.id order =? m + 1)
                 (os ++ [Order.mk (m + 1) customer_id book_ids
                           (order_total db book_ids) now])
               = Some (Order.mk (m + 1) customer_id book_ids
                         (order_total db book_ids) now)).
    { intros os ->. apply find_snoc_fresh.
      - intros x Hx. apply Z.eqb_neq.
        assert (Order.id x <= m).
        { apply Hm. apply in_map_iff. now exists x. }
        lia.
      - simpl. apply Z.eqb_refl. }
    split; [|split].
    + simpl. unfold get_books_for_order. simpl. apply order_total_sum.
    + unfold get_order_by_id. simpl. now apply Hfind.
    + intros books'. unfold get_order_by_id. simpl. now apply Hfind.
  - eexists; eexists. split; vm_compute; reflexivity.
Qed.

Lemma create_order_total_is_snapshot_witness :
  orders _init_data <> []
  /\ exists o db',
       create_order _init_data 2 [5; 8] (mk_datetime 2023 9 1)
       = Ok (o, db')
       /\ Order.total_amount o
          = sum_prices (get_books_for_order _init_data o).
Proof.
  assert (Ho : orders _init_data <> []) by discriminate.
  split; [assumption|].
  destruct (create_order_total_is_snapshot _init_data 2 [5; 8]
              (mk_datetime 2023 9 1)) as (T & _).
  destruct (T Ho) as (o & db' & E & Hsum & _).
  exists o, db'. split; assumption.
Defined.

(** C5 as stated fails on the seed data: an order created for books 1 and
    2 does not have a total equal to 62.98. *)
Lemma create_order_total_counterexample :
  exists o db',
    create_order _init_data 1 [1; 2] (mk_datetime 2023 9 1) = Ok (o, db')
    /\ PrimFloat.eqb (Order.total_amount o) 62.98%float = false.
Proof.
  eexists; eexists. split; vm_compute; reflexivity.
Qed.

(** The seed order 1 is written with the literal 62.98, which is not the
    sum [create_order] computes for the same two books. *)
Lemma seed_order_total_differs :
  exists o,
    get_order_by_id _init_data 1 = Some o
    /\ Order.book_ids o = [1; 2]
    /\ PrimFloat.eqb (Order.total_amount o) 62.98%float = true
    /\ PrimFloat.eqb (Order.total_amount o)
         (sum_prices (get_books_for_order _init_data o)) = false.
Proof.
  eexists. split; [vm_compute; reflexivity|].
  repeat split; vm_compute; reflexivity.
Qed.

End StoreFacts.

(** ** Foreign keys at creation time *)

Module ForeignKeyFacts.

Import MockDatabase.

Lemma first_unknown_book_some (db : t) (book_ids : list Z) (b : Z) :
  RestApp.first_unknown_book db book_ids = Some b ->
  In b book_ids /\ get_book_by_id db b = None.
Proof.
  unfold RestApp.first_unknown_book. intros H. apply find_some in H.
  destruct H as [Hin Hb]. split; [assumption|].
  destruct (get_book_by_id db b); [discriminate|reflexivity].
Qed.

Lemma first_unknown_book_none (db : t) (book_ids : list Z) :
  RestApp.first_unknown_book db book_ids = None ->
  forall b, In b book_ids -> get_book_by_id db b <> None.
Proof.
  unfold RestApp.first_unknown_book. intros H b Hin Hb.
  pose proof (find_none _ _ H b Hin) as X. simpl in X.
  now rewrite Hb in X.
Qed.

(** C4 (amended).  An order submitted to the REST create-order handler with
    a customer_id or a book id that does not resolve is refused: the
    handler answers 404 with a readable reason naming what is missing and
    the store is left as it was.  The store's own [create_order] does not
    check references: on a non-empty order collection it succeeds and
    records [customer_id] and [book_ids] exactly as given. *)
Theorem create_order_unknown_reference (db : t) (customer_id : Z)
    (book_ids : list Z) (now : datetime) :
  (get_customer_by_id db customer_id = None
   \/ (exists b, In b book_ids /\ get_book_by_id db b = None) ->
   exists reason,
     RestApp.create_order db
       (RestApp.mk_order_json (Some customer_id) (Some book_ids)) now
     = ((RestApp.ErrorBody reason, 404), db)
     /\ (reason = "Customer not found"
           /\ get_customer_by_id db customer_id = None
         \/ exists b,
              In b book_ids /\ get_book_by_id db b = None
              /\ reason = "Book with ID " ++ str_of_int b ++ " not found"))
  /\ (orders db <> [] ->
      exists o db',
        create_order db customer_id book_ids now = Ok (o, db')
        /\ Order.customer_id o = customer_id
        /\ Order.book_ids o = book_ids
        /\ In o (orders db')).
Proof.
  split.
  - intros Hunknown. unfold RestApp.create_order. simpl.
    destruct (get_customer_by_id db customer_id) as [c|] eqn:Ec.
    + destruct Hunknown as [Hc|(b & Hin & Hb)]; [discriminate|].
      destruct (RestApp.first_unknown_book db book_ids) as [b'|] eqn:Eb.
      * destruct (first_unknown_book_some _ _ _ Eb) as [Hin' Hb'].
        eexists. split; [reflexivity|]. right. exists b'. now repeat split.
      * exfalso. exact (first_unknown_book_none _ _ Eb b Hin Hb).
    + eexists. split; [reflexivity|]. left. now split.
  - intros Hne.
    destruct (StoreFacts.create_order_next db customer_id book_ids now Hne)
      as (m & _ & E).
    eexists; eexists. split; [exact E|]. simpl.
    repeat split. apply in_or_app. right. now left.
Qed.

Lemma create_order_unknown_reference_witness :
  (get_customer_by_id _init_data 999 = None
   /\ orders _init_data <> [])
  /\ (exists reason,
        RestApp.create_order _init_data
          (RestApp.mk_order_json (Some 999) (Some [1; 42]))
          (mk_datetime 2023 9 1)
        = ((RestApp.ErrorBody reason, 404), _init_data))
  /\ (exists o db',
        create_order _init_data 999 [1; 42] (mk_datetime 2023 9 1)
        = Ok (o, db')
        /\ Order.customer_id o = 999).
Proof.
  assert (Hc : get_customer_by_id _init_data 999 = None) by reflexivity.
  assert (Ho : orders _init_data <> []) by discriminate.
  split; [split; assumption|].
  destruct (create_order_unknown_reference _init_data 999 [1; 42]
              (mk_datetime 2023 9 1)) as (Trest & Tstore).
  split.
  - destruct (Trest (or_introl Hc)) as (reason & E & _).
    exists reason. exact E.
  - destruct (Tstore Ho) as (o & db' & E & Hcid & _).
    exists o, db'. split; assumption.
Defined.

(** C4 as stated fails on the store: [create_order] with a customer id and a
    book id that resolve to nothing returns the new order, not a failure. *)
Lemma create_order_unknown_reference_counterexample :
  get_customer_by_id _init_data 999 = None
  /\ get_book_by_id _init_data 42 = None
  /\ exists o db',
       create_order _init_data 999 [1; 42] (mk_datetime 2023 9 1)
       = Ok (o, db')
       /\ Order.id o = 6
       /\ Order.customer_id o = 999
       /\ Order.book_ids o = [1; 42].
Proof.
  split; [reflexivity|]. split; [reflexivity|].
  eexists; eexists. split; [vm_compute; reflexivity|].
  repeat split.
Qed.

(** The create-book handler has no such check: a book whose author does
    not resolve is stored and answered with 201. *)
Lemma create_book_keeps_unknown_author :
  get_author_by_id _init_data 999 = None
  /\ exists b db',
       RestApp.create_book _init_data
         (RestApp.mk_book_json (Some "Emma") (Some 999) (Some 21.5%float)
            (Some "Romance") (Some 1815) (Some "978-0141439587"))
       = ((RestApp.BookBody b, 201), db')
       /\ Book.author_id b = 999
       /\ In b (books db').
Proof.
  split; [reflexivity|].
  eexists; eexists. split; [vm_compute; reflexivity|].
  split; [reflexivity|]. simpl. tauto.
Qed.

End ForeignKeyFacts.

(** ** The GraphQL resolvers *)

Module SchemaFacts.

(** A small catalogue in the shape the resolvers read: one non-Fantasy
    book followed by the two Fantasy books of the seed data. *)
Definition sample_books : list Schema.Book.t :=
  [ Schema.Book.mk 3 "1984" "978-0451524935" 19.99%float
      (mk_datetime 1949 6 8) 2 (Some "Dystopian Fiction") None;
    Schema.Book.mk 1 "Harry Potter and the Philosopher's Stone"
      "978-0439708180" 29.99%float (mk_datetime 1997 6 26) 1
      (Some "Fantasy") (Some "A boy learns he is a wizard");
    Schema.Book.mk 2 "Harry Potter and the Chamber of Secrets"
      "978-0439064873" 32.99%float (mk_datetime 1998 7 2) 1
      (Some "Fantasy") None ].

Definition sample_books_by_author (author_id : Z) : list Schema.Book.t :=
  filter (fun book => Schema.Book.author_id book =? author_id) sample_books.

Lemma py_slice_to_pos {A : Type} (xs : list A) (n : Z) :
  0 <= n -> py_slice_to xs n = firstn (Z.to_nat n) xs.
Proof.
  intros Hn. unfold py_slice_to.
  destruct (0 <=? n) eqn:E; [reflexivity|]. apply Z.leb_gt in E. lia.
Qed.

Lemma apply_limit_pos {A : Type} (n : Z) (xs : list A) :
  1 <= n -> Schema.apply_limit (Some n) xs = firstn (Z.to_nat n) xs.
Proof.
  intros Hn. unfold Schema.apply_limit, Schema.truthy_int.
  destruct (n =? 0) eqn:E.
  - apply Z.eqb_eq in E. lia.
  - simpl. apply py_slice_to_pos. lia.
Qed.

Lemma apply_limit_zero {A : Type} (xs : list A) :
  Schema.apply_limit (Some 0) xs = xs.
Proof. reflexivity. Qed.

Lemma apply_limit_none {A : Type} (xs : list A) :
  Schema.apply_limit None xs = xs.
Proof. reflexivity. Qed.

Section Readers.

Variable get_all_authors : list Schema.Author.t.
Variable get_all_books : list Schema.Book.t.
Variable get_books_by_author : Z -> list Schema.Book.t.
Variable get_all_customers : list Schema.Customer.t.
Variable get_all_orders : list Schema.Order.t.
Variable get_orders_by_customer : Z -> list Schema.Order.t.

(** C8 (amended).  For every limit N >= 1 the filters are applied before
    the limit: [books] with author and genre filters and limit N is the
    first N elements, in original order, of the same query without limit,
    and likewise for [search_books]; with genre "Fantasy" and limit 1 the
    result is the first Fantasy book of the catalogue (or nothing when
    there is none). *)
Theorem books_filter_then_limit (n : Z) (author_id : option Z)
    (genre : option string) (query : string) :
  1 <= n ->
  Schema.books get_all_books get_books_by_author (Some n) author_id genre
  = firstn (Z.to_nat n)
      (Schema.books get_all_books get_books_by_author None author_id genre)
  /\ Schema.search_books get_all_books query (Some n)
     = firstn (Z.to_nat n) (filter (Schema.search_match query) get_all_books)
  /\ Schema.books get_all_books get_books_by_author (Some 1) None
       (Some "Fantasy")
     = firstn 1
         (filter (fun book =>
                    Schema.opt_str_eqb (Schema.Book.genre book) "Fantasy")
            get_all_books).
Proof.
  intros Hn. split; [|split].
  - unfold Schema.books. rewrite apply_limit_none.
    now apply apply_limit_pos.
  - unfold Schema.search_books. now apply apply_limit_pos.
  - unfold Schema.books. rewrite (apply_limit_pos 1) by lia. reflexivity.
Qed.

(** The whole filtered sequence of a [books] query, spelled out: the
    books of the author when an author id other than 0 is given, all books
    otherwise; of these, when a genre other than the empty string is given,
    the books of exactly that genre, in their order. *)
Definition filtered_books (author_id : option Z) (genre : option string)
  : list Schema.Book.t :=
  let source :=
    match author_id with
    | Some a => if a =? 0 then get_all_books else get_books_by_author a
    | None => get_all_books
    end in
  match genre with
  | Some g =>
      if String.eqb g "" then source
      else filter (fun book =>
                     match Schema.Book.genre book with
                     | Some x => String.eqb x g
                     | None => false
                     end) source
  | None => source
  end.

(** The whole filtered sequence of an [orders] query, likewise by customer
    and by status. *)
Definition filtered_orders (customer_id : option Z) (status : option string)
  : list Schema.Order.t :=
  let source :=
    match customer_id with
    | Some c => if c =? 0 then get_all_orders else get_orders_by_customer c
    | None => get_all_orders
    end in
  match status with
  | Some s =>
      if String.eqb s "" then source
      else filter (fun order => String.eqb (Schema.Order.status order) s)
             source
  | None => source
  end.

Lemma books_unlimited (author_id : option Z) (genre : option string) :
  Schema.books get_all_books get_books_by_author None author_id genre
  = filtered_books author_id genre.
Proof.
  unfold Schema.books, filtered_books. rewrite apply_limit_none.
  destruct author_id as [a|], genre as [g|]; simpl;
    try destruct (a =? 0); try destruct (String.eqb g ""); reflexivity.
Qed.

Lemma orders_unlimited (customer_id : option Z) (status : option string) :
  Schema.orders get_all_orders get_orders_by_customer None customer_id status
  = filtered_orders customer_id status.
Proof.
  unfold Schema.orders, filtered_orders. rewrite apply_limit_none.
  destruct customer_id as [c|], status as [st|]; simpl;
    try destruct (c =? 0); try destruct (String.eqb st ""); reflexivity.
Qed.

(** C10.  A limit of 0 is the same as no limit: each of the five list
    queries returns the whole, filtered, sequence, not an empty one.  For
    [books] and [orders] that sequence is the one spelled out above, for
    [authors] and [customers] it is all of them, for [search_books] it is
    every matching book. *)
Theorem limit_zero_is_no_limit (author_id customer_id : option Z)
    (genre status : option string) (query : string) :
  Schema.books get_all_books get_books_by_author (Some 0) author_id genre
  = Schema.books get_all_books get_books_by_author None author_id genre
  /\ Schema.authors get_all_authors (Some 0) = get_all_authors
  /\ Schema.customers get_all_customers (Some 0) = get_all_customers
  /\ Schema.orders get_all_orders get_orders_by_customer (Some 0)
       customer_id status
     = Schema.orders get_all_orders get_orders_by_customer None customer_id
         status
  /\ Schema.search_books get_all_books query (Some 0)
     = filter (Schema.search_match query) get_all_books
  /\ Schema.search_books get_all_books query (Some 0)
     = Schema.search_books get_all_books query None
  /\ Schema.books get_all_books get_books_by_author (Some 0) author_id genre
     = filtered_books author_id genre
  /\ Schema.orders get_all_orders get_orders_by_customer (Some 0)
       customer_id status
     = filtered_orders customer_id status.
Proof.
  assert (Hb : Schema.books get_all_books get_books_by_author (Some 0)
                 author_id genre
               = Schema.books get_all_books get_books_by_author None
                   author_id genre).
  { unfold Schema.books. now rewrite apply_limit_zero, apply_limit_none. }
  assert (Ho : Schema.orders get_all_orders get_orders_by_customer (Some 0)
                 customer_id status
               = Schema.orders get_all_orders get_orders_by_customer None
                   customer_id status).
  { unfold Schema.orders. now rewrite apply_limit_zero, apply_limit_none. }
  split; [exact Hb|]. split; [reflexivity|]. split; [reflexivity|].
  split; [exact Ho|]. split; [reflexivity|]. split; [reflexivity|].
  split.
  - rewrite Hb. apply books_unlimited.
  - rewrite Ho. apply orders_unlimited.
Qed.

End Readers.

Lemma books_filter_then_limit_witness :
  1 <= 1
  /\ Schema.books sample_books sample_books_by_author (Some 1) None
       (Some "Fantasy")
     = firstn 1
         (Schema.books sample_books sample_books_by_author None None
            (Some "Fantasy")).
Proof.
  split; [lia|].
  apply (books_filter_then_limit sample_books sample_books_by_author 1 None
           (Some "Fantasy") "potter"). lia.
Defined.

(** C8 as stated fails for N = 0: the query returns both Fantasy books, not
    the first 0 elements of the filtered sequence. *)
Lemma books_filter_then_limit_counterexample :
  Schema.books sample_books sample_books_by_author (Some 0) None
    (Some "Fantasy")
  <> firstn 0
       (filter (fun book =>
                  Schema.opt_str_eqb (Schema.Book.genre book) "Fantasy")
          sample_books)
  /\ List.length
       (Schema.books sample_books sample_books_by_author (Some 0) None
          (Some "Fantasy")) = 2%nat.
Proof.
  split; [|reflexivity].
  intros H. apply (f_equal (@List.length _)) in H. discriminate H.
Qed.

(** Limiting first and filtering afterwards would lose the Fantasy book. *)
Lemma limit_then_filter_differs :
  map Schema.Book.id
    (Schema.books sample_books sample_books_by_author (Some 1) None
       (Some "Fantasy")) = [1]
  /\ filter (fun book =>
               Schema.opt_str_eqb (Schema.Book.genre book) "Fantasy")
       (firstn 1 sample_books) = [].
Proof. split; reflexivity. Qed.

(** C7, at the failing input.  The query-level genre filter compares with
    [==]: asked for "fantasy" it returns nothing although the catalogue
    holds two books of genre "Fantasy", which the store-level filter finds
    in its own data for the same argument. *)
Theorem books_genre_filter_is_case_sensitive :
  Schema.books sample_books sample_books_by_author None None
    (Some "fantasy") = []
  /\ map Schema.Book.id
       (Schema.books sample_books sample_books_by_author None None
          (Some "Fantasy")) = [1; 2]
  /\ map Book.id
       (MockDatabase.get_books_by_genre MockDatabase._init_data "fantasy")
     = [1; 2].
Proof. repeat split; reflexivity. Qed.

End SchemaFacts.

(** ** Deletion *)

Module DeleteFacts.

Import Database.

Definition ids (k : kind) (db : t) : list Z :=
  map (entity_id k) (collection k db).

Lemma existsb_id_false {E : Type} (id_of : E -> Z) (id : Z) (l : list E) :
  ~ In id (map id_of l) -> existsb (fun e => id_of e =? id) l = false.
Proof.
  induction l as [|e l IH]; simpl; [reflexivity|]. intros Hn.
  destruct (id_of e =? id) eqn:Hq.
  - apply Z.eqb_eq in Hq. exfalso. apply Hn. now left.
  - simpl. apply IH. intros H. apply Hn. now right.
Qed.

Lemma existsb_id_true {E : Type} (id_of : E -> Z) (id : Z) (l : list E) :
  In id (map id_of l) -> existsb (fun e => id_of e =? id) l = true.
Proof.
  intros H. apply in_map_iff in H. destruct H as (e & He & Hin).
  apply existsb_exists. exists e. split; [assumption|]. now apply Z.eqb_eq.
Qed.

(** What [remove_by_id] takes away: the first entity carrying the id, and
    nothing else. *)
Lemma remove_by_id_split {E : Type} (id_of : E -> Z) (id : Z) (l : list E) :
  In id (map id_of l) ->
  exists l1 e l2,
    l = (l1 ++ e :: l2)%list /\ id_of e = id /\ ~ In id (map id_of l1)
    /\ remove_by_id id_of id l = (l1 ++ l2)%list.
Proof.
  induction l as [|x l IH]; simpl; [contradiction|]. intros H.
  destruct (id_of x =? id) eqn:Hq.
  - apply Z.eqb_eq in Hq. exists [], x, l. simpl. tauto.
  - apply Z.eqb_neq in Hq. destruct H as [H|H]; [contradiction|].
    destruct (IH H) as (l1 & e & l2 & -> & He & Hn & Hr).
    exists (x :: l1), e, l2. simpl. rewrite Hr.
    repeat split; try assumption. intros [X|X]; [contradiction|].
    now apply Hn.
Qed.

Lemma collection_set_same (k : kind) (l : list (entity k)) (db : t) :
  collection k (set_collection k l db) = l.
Proof. destruct k; reflexivity. Qed.

Lemma collection_set_other (k k' : kind) (l : list (entity k)) (db : t) :
  k' <> k -> collection k' (set_collection k l db) = collection k' db.
Proof. destruct k, k'; intros H; try reflexivity; congruence. Qed.

(** C9.  For every collection kind: deleting an id that is not in the
    collection returns false and leaves the whole store unchanged, so doing
    it again changes nothing either; deleting an id that is present returns
    true, removes the first entity with that id and no other, keeps the
    order of the rest, and leaves the three other collections as they
    were.  The [Mutation] resolvers return what the store returns. *)
Theorem delete_removes_only_the_match (k : kind) (id : Z) (db : t) :
  (~ In id (ids k db) ->
   delete k id db = (false, db)
   /\ delete k id (snd (delete k id db)) = (false, db))
  /\ (In id (ids k db) ->
      exists l1 e l2,
        collection k db = (l1 ++ e :: l2)%list
        /\ entity_id k e = id
        /\ ~ In id (map (entity_id k) l1)
        /\ fst (delete k id db) = true
        /\ collection k (snd (delete k id db)) = (l1 ++ l2)%list
        /\ forall k', k' <> k ->
             collection k' (snd (delete k id db)) = collection k' db)
  /\ Mutation.delete_author db id = delete KAuthor id db
  /\ Mutation.delete_book db id = delete KBook id db
  /\ Mutation.delete_customer db id = delete KCustomer id db.
Proof.
  split; [|split].
  - intros Hn. unfold delete, ids in *.
    rewrite (existsb_id_false _ _ _ Hn). simpl.
    now rewrite (existsb_id_false _ _ _ Hn).
  - intros Hin. unfold delete, ids in *.
    rewrite (existsb_id_true _ _ _ Hin). simpl.
    destruct (remove_by_id_split _ _ _ Hin) as (l1 & e & l2 & El & He & Hn & Hr).
    exists l1, e, l2. rewrite Hr.
    split; [assumption|]. split; [assumption|]. split; [assumption|].
    split; [reflexivity|]. split.
    + apply collection_set_same.
    + intros k' Hk. now apply collection_set_other.
  - repeat split.
Qed.

Definition sample_db : t :=
  {| authors :=
       [ Schema.Author.mk 1 "J.K. Rowling" "jk@example.com" None
           (mk_datetime 2023 1 1) ];
     books := SchemaFacts.sample_books;
     customers :=
       [ Schema.Customer.mk 1 "Alice Johnson" "alice@example.com" None None
           (mk_datetime 2023 1 15) ];
     orders := [] |}.

Lemma delete_removes_only_the_match_witness :
  (~ In 7 (ids KBook sample_db) /\ In 1 (ids KBook sample_db))
  /\ delete KBook 7 sample_db = (false, sample_db)
  /\ exists l1 e l2,
       collection KBook sample_db = (l1 ++ e :: l2)%list
       /\ collection KBook (snd (delete KBook 1 sample_db)) = (l1 ++ l2)%list.
Proof.
  assert (Habsent : ~ In 7 (ids KBook sample_db)).
  { simpl. intros [H|[H|[H|[]]]]; discriminate H. }
  assert (Hpresent : In 1 (ids KBook sample_db)).
  { simpl. right. now left. }
  split; [split; assumption|]. split.
  - destruct (delete_removes_only_the_match KBook 7 sample_db) as (T & _).
    exact (proj1 (T Habsent)).
  - destruct (delete_removes_only_the_match KBook 1 sample_db)
      as (_ & T & _).
    destruct (T Hpresent) as (l1 & e & l2 & El & _ & _ & _ & Er & _).
    exists l1, e, l2. split; assumption.
Defined.

End DeleteFacts.

(** ** The two clients and their request counts *)

Module ClientFacts.

(** The [total_requests] entry of a result bundle. *)
Definition call_count (bundle : json_value) : option json_value :=
  match bundle with
  | JDict d => Py.dict_get d "total_requests"
  | _ => None
  end.

Lemma dict_get_set_same (d : list (string * json_value)) (k : string)
    (v : json_value) :
  Py.dict_get (Py.dict_set d k v) k = Some v.
Proof.
  induction d as [|[k' w] d IH]; simpl.
  - now rewrite String.eqb_refl.
  - destruct (String.eqb k' k) eqn:Hq; simpl; rewrite Hq; [reflexivity|exact IH].
Qed.

Lemma dict_get_set_other (d : list (string * json_value)) (k k' : string)
    (v : json_value) :
  k <> k' -> Py.dict_get (Py.dict_set d k v) k' = Py.dict_get d k'.
Proof.
  intros Hk. induction d as [|[k0 w] d IH]; simpl.
  - destruct (String.eqb k k') eqn:Hq; [|reflexivity].
    apply String.eqb_eq in Hq. contradiction.
  - destruct (String.eqb k0 k) eqn:Hq; simpl.
    + apply String.eqb_eq in Hq. subst k0.
      destruct (String.eqb k k') eqn:Hq'; [|reflexivity].
      apply String.eqb_eq in Hq'. contradiction.
    + destruct (String.eqb k0 k'); [reflexivity|exact IH].
Qed.

Section GraphQL.

Variable server : Request.t -> Response.t.
Variable base_url : string.

Definition author_request (author_id : Z) : Request.t :=
  Request.mk "POST" base_url
    (Some (JDict
             [("query", JStr GraphQLBookstoreClient.author_with_books_query);
              ("variables", JDict [("authorId", JInt author_id)])])).

Definition customer_request (customer_id : Z) : Request.t :=
  Request.mk "POST" base_url
    (Some (JDict
             [("query",
               JStr GraphQLBookstoreClient.customer_order_summary_query);
              ("variables", JDict [("customerId", JInt customer_id)])])).

(** What [with_metrics] makes of a response, case by case. *)
Lemma with_metrics_run (response : Response.t) (log : list Request.t) :
  GraphQLBookstoreClient.with_metrics response log
  = (match Response.json response with
     | Ok (JDict d) =>
         Ok (JDict (Py.dict_set (Py.dict_set d "total_requests" (JInt 1))
                      "total_bytes"
                      (JInt (Py.len (Response.content response)))))
     | Ok _ => Raise TypeError
     | Raise e => Raise e
     end, log).
Proof.
  unfold GraphQLBookstoreClient.with_metrics, sbind, lift, sret.
  destruct (Response.json response) as [[| | | | | |d]|e]; reflexivity.
Qed.

(** C1.  Each composite Strategy B request sends exactly one request, a
    POST to the endpoint, whatever the server answers and however deep the
    selection is; every bundle it returns has [total_requests] equal to 1;
    and it does return a bundle whenever the server answers with a JSON
    object. *)
Theorem graphql_call_count_is_one (id : Z) (log : list Request.t) :
  (snd (GraphQLBookstoreClient.get_author_with_books server base_url id log)
   = (log ++ [author_request id])%list
   /\ snd (GraphQLBookstoreClient.get_customer_order_summary server base_url
             id log)
      = (log ++ [customer_request id])%list)
  /\ (forall bundle,
        fst (GraphQLBookstoreClient.get_author_with_books server base_url id
               log) = Ok bundle
        \/ fst (GraphQLBookstoreClient.get_customer_order_summary server
                  base_url id log) = Ok bundle ->
        call_count bundle = Some (JInt 1))
  /\ (forall d,
        Response.json (server (author_request id)) = Ok (JDict d) ->
        exists bundle,
          fst (GraphQLBookstoreClient.get_author_with_books server base_url
                 id log) = Ok bundle)
  /\ (forall d,
        Response.json (server (customer_request id)) = Ok (JDict d) ->
        exists bundle,
          fst (GraphQLBookstoreClient.get_customer_order_summary server
                 base_url id log) = Ok bundle).
Proof.
  unfold GraphQLBookstoreClient.get_author_with_books,
    GraphQLBookstoreClient.get_customer_order_summary, session_post, send,
    sbind.
  fold (author_request id). fold (customer_request id).
  rewrite !with_metrics_run. simpl.
  split; [split; reflexivity|]. split; [|split].
  - intros bundle [H|H].
    + destruct (Response.json (server (author_request id)))
        as [[| | | | | |d]|e]; inversion H; subst. simpl.
      rewrite dict_get_set_other by discriminate. apply dict_get_set_same.
    + destruct (Response.json (server (customer_request id)))
        as [[| | | | | |d]|e]; inversion H; subst. simpl.
      rewrite dict_get_set_other by discriminate. apply dict_get_set_same.
  - intros d ->. eexists. reflexivity.
  - intros d ->. eexists. reflexivity.
Qed.

End GraphQL.

(** A GraphQL server that answers every request with the same object. *)
Definition constant_server (req : Request.t) : Response.t :=
  Response.mk "{}" (Ok (JDict [("data", JNull)])).

Lemma graphql_call_count_is_one_witness :
  Response.json (constant_server (author_request "http://localhost:8001/graphql" 1))
  = Ok (JDict [("data", JNull)])
  /\ exists bundle,
       fst (GraphQLBookstoreClient.get_author_with_books constant_server
              "http://localhost:8001/graphql" 1 []) = Ok bundle
       /\ call_count bundle = Some (JInt 1).
Proof.
  split; [reflexivity|].
  destruct (graphql_call_count_is_one constant_server
              "http://localhost:8001/graphql" 1 []) as (_ & Hcount & Hret & _).
  destruct (Hret [("data", JNull)] eq_refl) as (bundle & E).
  exists bundle. split; [exact E|]. apply Hcount. now left.
Defined.

Section REST.

Import RESTBookstoreClient.

Variable server : Request.t -> Response.t.
Variable base_url : string.
Variable format : json_value -> string.

Local Arguments String.append : simpl never.

(** Every answer of the server decodes as JSON. *)
Definition always_json : Prop :=
  forall req, exists v, Response.json (server req) = Ok v.

Lemma enrich_items_count (items : list json_value) :
  always_json ->
  forallb item_ok items = true ->
  forall enriched_items c log,
  exists enriched c' log',
    enrich_items server base_url format items enriched_items c log
    = (Ok (enriched, c'), log')
    /\ request_count c' = request_count c + Z.of_nat (List.length items)
    /\ List.length log' = (List.length log + List.length items)%nat.
Proof.
  intros Hjson. induction items as [|item items IH]; intros Hok acc c log.
  - exists acc, c, log. simpl. repeat split; lia.
  - simpl in Hok. apply andb_true_iff in Hok. destruct Hok as [Hitem Hrest].
    destruct item as [| | | | | |d]; try discriminate Hitem.
    simpl in Hitem.
    destruct (Py.dict_get d "book_id") as [book_id|] eqn:Hid;
      [|discriminate Hitem].
    set (req := Request.mk "GET" (base_url ++ "/books/" ++ format book_id)
                  None).
    destruct (Hjson req) as (book_data & Hdata).
    destruct (IH Hrest
                (acc ++ [JDict (Py.dict_set d "book" book_data)])%list
                (count c (server req)) (log ++ [req])%list)
      as (enriched & c' & log' & Hrun & Hcount & Hlog).
    exists enriched, c', log'. split; [|split].
    + simpl. unfold sbind, lift, session_get, send. simpl. rewrite Hid.
      fold req. rewrite Hdata. simpl. exact Hrun.
    + rewrite Hcount. simpl. lia.
    + rewrite Hlog, length_app. simpl. lia.
Qed.

Lemma enrich_orders_count (orders : list json_value) :
  always_json ->
  orders_ok orders = true ->
  forall enriched_orders c log,
  exists enriched c' log',
    enrich_orders server base_url format orders enriched_orders c log
    = (Ok (enriched, c'), log')
    /\ request_count c'
       = request_count c + Z.of_nat (List.length (all_items orders))
    /\ List.length log'
       = (List.length log + List.length (all_items orders))%nat.
Proof.
  intros Hjson. unfold orders_ok.
  induction orders as [|order orders IH]; intros Hok acc c log.
  - exists acc, c, log. simpl. repeat split; lia.
  - simpl in Hok. apply andb_true_iff in Hok. destruct Hok as [Horder Hrest].
    destruct order as [| | | | | |d]; try discriminate Horder.
    simpl in Horder.
    destruct (Py.dict_get d "items") as [[| | | | |items|]|] eqn:Hitems;
      try discriminate Horder.
    destruct (enrich_items_count items Hjson Horder [] c log)
      as (enriched_items & c1 & log1 & Hrun1 & Hcount1 & Hlog1).
    destruct (IH Hrest
                (acc ++ [JDict (Py.dict_set d "items" (JList enriched_items))])%list
                c1 log1)
      as (enriched & c' & log' & Hrun & Hcount & Hlog).
    exists enriched, c', log'. split; [|split].
    + simpl. unfold sbind at 1 2 3, lift. simpl. rewrite Hitems. simpl.
      unfold sbind at 1. rewrite Hrun1. unfold sbind at 1. simpl.
      exact Hrun.
    + rewrite Hcount, Hcount1. unfold all_items. simpl.
      rewrite Hitems, length_app. lia.
    + rewrite Hlog, Hlog1. unfold all_items. simpl.
      rewrite Hitems, length_app. lia.
Qed.

Definition orders_request (customer_id : Z) : Request.t :=
  Request.mk "GET"
    (base_url ++ "/orders?customer_id=" ++ str_of_int customer_id) None.

(** Every item names its book by an integer id. *)
Definition int_refs (orders : list json_value) : bool :=
  forallb (fun item => match book_ref item with
                       | [_] => true
                       | _ => false
                       end) (all_items orders).

Lemma int_refs_length (items : list json_value) :
  forallb (fun item => match book_ref item with
                       | [_] => true
                       | _ => false
                       end) items = true ->
  List.length (flat_map book_ref items) = List.length items.
Proof.
  induction items as [|item items IH]; simpl; [reflexivity|].
  intros H. apply andb_true_iff in H. destruct H as [Hitem Hrest].
  rewrite length_app, (IH Hrest).
  destruct (book_ref item) as [|n [|n' l]]; try discriminate Hitem.
  reflexivity.
Qed.

(** C2 (amended).  When the server answers every request with JSON and the
    orders answer is a list of orders whose [items] are lists of entries
    holding a [book_id], the Strategy A traversal returns a bundle whose
    [total_requests] is 2 plus the total number of order items: one
    customer call, one orders call and one Book lookup per item, repeated
    references included; that many requests are sent.  When no book is
    referenced twice this is 2 plus the number of distinct references. *)
Theorem rest_call_count_is_two_plus_items (customer_id : Z)
    (orders : list json_value) (log : list Request.t) :
  always_json ->
  Response.json (server (orders_request customer_id)) = Ok (JList orders) ->
  orders_ok orders = true ->
  exists bundle log',
    get_customer_order_summary server base_url format customer_id log
    = (Ok bundle, log')
    /\ call_count bundle
       = Some (JInt (2 + Z.of_nat (List.length (all_items orders))))
    /\ List.length log'
       = (List.length log + 2 + List.length (all_items orders))%nat
    /\ (int_refs orders = true -> NoDup (book_refs orders) ->
        call_count bundle = Some (JInt (2 + distinct_book_refs orders))).
Proof.
  intros Hjson Horders Hok.
  set (customer_req :=
         Request.mk "GET"
           (base_url ++ "/customers/" ++ str_of_int customer_id) None).
  destruct (Hjson customer_req) as (customer_data & Hcustomer).
  set (c2 := count (count {| request_count := 0; total_bytes := 0 |}
                      (server customer_req))
               (server (orders_request customer_id))).
  destruct (enrich_orders_count orders Hjson Hok [] c2
              ((log ++ [customer_req]) ++ [orders_request customer_id])%list)
    as (enriched & c' & log' & Hrun & Hcount & Hlog).
  assert (Hc2 : request_count c2 = 2) by reflexivity.
  exists (JDict [("customer", customer_data);
                 ("orders", JList enriched);
                 ("total_requests", JInt (request_count c'));
                 ("total_bytes", JInt (total_bytes c'))]), log'.
  split; [|split; [|split]].
  - unfold get_customer_order_summary, sbind, lift, session_get, send, sret.
    fold customer_req. rewrite Hcustomer.
    fold (orders_request customer_id). rewrite Horders. simpl.
    fold c2. now rewrite Hrun.
  - simpl. rewrite Hcount, Hc2. reflexivity.
  - rewrite Hlog, !length_app. simpl. lia.
  - intros Hint Hnodup. simpl. rewrite Hcount, Hc2.
    unfold distinct_book_refs. rewrite (nodup_fixed_point Z.eq_dec Hnodup).
    unfold book_refs. now rewrite (int_refs_length _ Hint).
Qed.

End REST.

Definition plain_format (v : json_value) : string :=
  match v with
  | JInt n => str_of_int n
  | JStr s => s
  | _ => ""
  end.

(** The orders a customer gets back when one order lists book 1 twice. *)
Definition repeated_orders : list json_value :=
  [ JDict [("id", JInt 1);
           ("items",
            JList [ JDict [("book_id", JInt 1); ("quantity", JInt 1)];
                    JDict [("book_id", JInt 1); ("quantity", JInt 2)] ])] ].

Definition repeated_server (req : Request.t) : Response.t :=
  if String.eqb (Request.url req) "http://localhost:8000/orders?customer_id=1"
  then Response.mk "[]" (Ok (JList repeated_orders))
  else Response.mk "{}" (Ok (JDict [])).

Lemma repeated_server_json : always_json repeated_server.
Proof.
  intros req. unfold repeated_server.
  destruct (String.eqb (Request.url req) _); eexists; reflexivity.
Qed.

Lemma rest_call_count_is_two_plus_items_witness :
  (always_json repeated_server
   /\ Response.json
        (repeated_server (orders_request "http://localhost:8000" 1))
      = Ok (JList repeated_orders)
   /\ RESTBookstoreClient.orders_ok repeated_orders = true)
  /\ exists bundle log',
       RESTBookstoreClient.get_customer_order_summary repeated_server
         "http://localhost:8000" plain_format 1 [] = (Ok bundle, log')
       /\ call_count bundle
          = Some (JInt (2 + Z.of_nat (List.length
                                        (RESTBookstoreClient.all_items
                                           repeated_orders)))).
Proof.
  assert (H1 : Response.json
                 (repeated_server (orders_request "http://localhost:8000" 1))
               = Ok (JList repeated_orders)) by reflexivity.
  assert (H2 : RESTBookstoreClient.orders_ok repeated_orders = true)
    by reflexivity.
  split; [split; [exact repeated_server_json|split; assumption]|].
  destruct (rest_call_count_is_two_plus_items repeated_server
              "http://localhost:8000" plain_format 1 repeated_orders []
              repeated_server_json H1 H2)
    as (bundle & log' & Hrun & Hcount & _).
  exists bundle, log'. split; assumption.
Defined.

(** C2 as stated fails when a book is referenced twice: four requests are
    counted and sent, where 2 plus the number of distinct references is 3. *)
Lemma rest_call_count_counterexample :
  exists bundle log',
    RESTBookstoreClient.get_customer_order_summary repeated_server
      "http://localhost:8000" plain_format 1 [] = (Ok bundle, log')
    /\ call_count bundle = Some (JInt 4)
    /\ List.length log' = 4%nat
    /\ 2 + RESTBookstoreClient.distinct_book_refs repeated_orders = 3.
Proof.
  eexists; eexists. split; [vm_compute; reflexivity|].
  repeat split.
Qed.

End ClientFacts.

(** ** The store-level genre filter *)

Module GenreFacts.

Definition is_upper (c : ascii) : bool :=
  ((65 <=? nat_of_ascii c) && (nat_of_ascii c <=? 90))%nat.

(** Two characters are the same up to letter case: equal, or one is the
    capital of the other. *)
Definition same_letter (a b : ascii) : bool :=
  Ascii.eqb a b
  || (is_upper a && (nat_of_ascii b =? nat_of_ascii a + 32)%nat)
  || (is_upper b && (nat_of_ascii a =? nat_of_ascii b + 32)%nat).

Fixpoint eq_ignore_case (s1 s2 : string) : bool :=
  match s1, s2 with
  | EmptyString, EmptyString => true
  | String a r1, String b r2 => same_letter a b && eq_ignore_case r1 r2
  | _, _ => false
  end.

Definition all_ascii : list ascii := map ascii_of_nat (seq 0 256).

Lemma all_ascii_complete (a : ascii) : In a all_ascii.
Proof.
  unfold all_ascii. rewrite <- (ascii_nat_embedding a).
  apply in_map. apply in_seq. pose proof (nat_ascii_bounded a). lia.
Qed.

Lemma lower_ascii_same_letter (a b : ascii) :
  Ascii.eqb (lower_ascii a) (lower_ascii b) = same_letter a b.
Proof.
  assert (H : forallb
                (fun x =>
                   forallb
                     (fun y =>
                        Bool.eqb (Ascii.eqb (lower_ascii x) (lower_ascii y))
                          (same_letter x y)) all_ascii) all_ascii = true)
    by (vm_compute; reflexivity).
  rewrite forallb_forall in H. specialize (H a (all_ascii_complete a)).
  rewrite forallb_forall in H. specialize (H b (all_ascii_complete b)).
  now apply Bool.eqb_prop.
Qed.

Lemma lower_eq_ignore_case (s1 s2 : string) :
  String.eqb (lower s1) (lower s2) = eq_ignore_case s1 s2.
Proof.
  revert s2; induction s1 as [|a r1 IH]; intros [|b r2]; simpl;
    try reflexivity.
  now rewrite lower_ascii_same_letter, IH.
Qed.

(** On ASCII strings, where [lower] is [str.lower()], the store-level
    filter is a case-insensitive exact match that keeps the order of the
    collection. *)
Lemma get_books_by_genre_ignores_case (db : MockDatabase.t) (g : string) :
  MockDatabase.get_books_by_genre db g
  = filter (fun book => eq_ignore_case (Book.genre book) g)
      (MockDatabase.books db)
  /\ forall book,
       In book (MockDatabase.get_books_by_genre db g) <->
       In book (MockDatabase.books db)
       /\ eq_ignore_case (Book.genre book) g = true.
Proof.
  assert (E : MockDatabase.get_books_by_genre db g
              = filter (fun book => eq_ignore_case (Book.genre book) g)
                  (MockDatabase.books db)).
  { unfold MockDatabase.get_books_by_genre. apply filter_ext.
    intros book. apply lower_eq_ignore_case. }
  split; [exact E|]. intros book. rewrite E. apply filter_In.
Qed.

End GenreFacts.

(** * Further properties of the store *)

Module StoreLaws.

Import MockDatabase.
Import StoreFacts.

(** ** Looking up in a sequence that grew by one element *)

Lemma find_snoc_other {A : Type} (f : A -> bool) (l : list A) (a : A) :
  f a = false -> find f (l ++ [a]) = find f l.
Proof.
  intros Ha. induction l as [|x l IH]; simpl.
  - now rewrite Ha.
  - destruct (f x); [reflexivity|exact IH].
Qed.

Lemma find_unique {A : Type} (id_of : A -> Z) (l : list A) (x : A) :
  NoDup (map id_of l) -> In x l ->
  find (fun y => id_of y =? id_of x) l = Some x.
Proof.
  induction l as [|y l IH]; simpl; [contradiction|].
  intros Hnd [->|Hin].
  - now rewrite Z.eqb_refl.
  - inversion Hnd as [|? ? Hnotin Hnd']; subst.
    destruct (id_of y =? id_of x) eqn:Hq.
    + apply Z.eqb_eq in Hq. exfalso. apply Hnotin. rewrite Hq.
      now apply in_map.
    + now apply IH.
Qed.

(** ** What a successful creation looks like *)

Lemma create_book_inv (db db' : t) (title : string) (author_id : Z)
    (price : float) (genre : string) (published_year : Z) (isbn : string)
    (b : Book.t) :
  create_book db title author_id price genre published_year isbn
  = Ok (b, db') ->
  exists m,
    is_max m (map Book.id (books db))
    /\ b = Book.mk (m + 1) title author_id price genre published_year isbn
    /\ db' = {| authors := authors db; books := books db ++ [b];
                customers := customers db; orders := orders db |}.
Proof.
  intros H. destruct (books db) as [|x l] eqn:Hb.
  - unfold create_book in H. rewrite Hb in H. discriminate H.
  - assert (Hne : books db <> []) by (rewrite Hb; discriminate).
    destruct (create_book_next db title author_id price genre published_year
                isbn Hne) as (m & Hm & E).
    rewrite E in H. injection H as <- <-. exists m.
    rewrite <- Hb. split; [exact Hm|split; reflexivity].
Qed.

Lemma create_customer_inv (db db' : t) (name email : string)
    (now : datetime) (c : Customer.t) :
  create_customer db name email now = Ok (c, db') ->
  exists m,
    is_max m (map Customer.id (customers db))
    /\ c = Customer.mk (m + 1) name email now
    /\ db' = {| authors := authors db; books := books db;
                customers := customers db ++ [c]; orders := orders db |}.
Proof.
  intros H. destruct (customers db) as [|x l] eqn:Hb.
  - unfold create_customer in H. rewrite Hb in H. discriminate H.
  - assert (Hne : customers db <> []) by (rewrite Hb; discriminate).
    destruct (create_customer_next db name email now Hne) as (m & Hm & E).
    rewrite E in H. injection H as <- <-. exists m.
    rewrite <- Hb. split; [exact Hm|split; reflexivity].
Qed.

Lemma create_order_inv (db db' : t) (customer_id : Z) (book_ids : list Z)
    (now : datetime) (o : Order.t) :
  create_order db customer_id book_ids now = Ok (o, db') ->
  exists m,
    is_max m (map Order.id (orders db))
    /\ o = Order.mk (m + 1) customer_id book_ids (order_total db book_ids) now
    /\ db' = {| authors := authors db; books := books db;
                customers := customers db; orders := orders db ++ [o] |}.
Proof.
  intros H. destruct (orders db) as [|x l] eqn:Hb.
  - unfold create_order in H. rewrite Hb in H. discriminate H.
  - assert (Hne : orders db <> []) by (rewrite Hb; discriminate).
    destruct (create_order_next db customer_id book_ids now Hne)
      as (m & Hm & E).
    rewrite E in H. injection H as <- <-. exists m.
    rewrite <- Hb. split; [exact Hm|split; reflexivity].
Qed.

(** Looking up by id in a collection that received an element whose id is
    one above the former greatest. *)
Lemma lookup_after_append {A : Type} (id_of : A -> Z) (l : list A) (x : A)
    (m : Z) :
  is_max m (map id_of l) -> id_of x = m + 1 ->
  find (fun y => id_of y =? m + 1) (l ++ [x]) = Some x
  /\ forall i, i <> m + 1 ->
       find (fun y => id_of y =? i) (l ++ [x])
       = find (fun y => id_of y =? i) l.
Proof.
  intros Hm Hx. split.
  - apply find_snoc_fresh.
    + intros y Hy. apply Z.eqb_neq.
      assert (id_of y <= m) by (apply Hm; now apply in_map). lia.
    + now apply Z.eqb_eq.
  - intros i Hi. apply find_snoc_other. apply Z.eqb_neq. lia.
Qed.

(** X1.  A successful creation is found again by its id, changes no other
    lookup of its collection and leaves the three other collections as
    they were. *)
Theorem creation_then_lookup (db : t) :
  (forall title author_id price genre published_year isbn b db',
     create_book db title author_id price genre published_year isbn
     = Ok (b, db') ->
     get_book_by_id db' (Book.id b) = Some b
     /\ (forall i, i <> Book.id b ->
           get_book_by_id db' i = get_book_by_id db i)
     /\ authors db' = authors db /\ customers db' = customers db
     /\ orders db' = orders db)
  /\ (forall name email now c db',
        create_customer db name email now = Ok (c, db') ->
        get_customer_by_id db' (Customer.id c) = Some c
        /\ (forall i, i <> Customer.id c ->
              get_customer_by_id db' i = get_customer_by_id db i)
        /\ authors db' = authors db /\ books db' = books db
        /\ orders db' = orders db)
  /\ (forall customer_id book_ids now o db',
        create_order db customer_id book_ids now = Ok (o, db') ->
        get_order_by_id db' (Order.id o) = Some o
        /\ (forall i, i <> Order.id o ->
              get_order_by_id db' i = get_order_by_id db i)
        /\ authors db' = authors db /\ books db' = books db
        /\ customers db' = customers db).
Proof.
  split; [|split].
  - intros title author_id price genre published_year isbn b db' H.
    destruct (create_book_inv _ _ _ _ _ _ _ _ _ H) as (m & Hm & Hb & ->).
    assert (Hid : Book.id b = m + 1) by (rewrite Hb; reflexivity).
    destruct (lookup_after_append Book.id (books db) b m Hm Hid)
      as [Hnew Hold].
    unfold get_book_by_id. simpl. rewrite Hid.
    split; [exact Hnew|]. split; [exact Hold|]. repeat split.
  - intros name email now c db' H.
    destruct (create_customer_inv _ _ _ _ _ _ H) as (m & Hm & Hc & ->).
    assert (Hid : Customer.id c = m + 1) by (rewrite Hc; reflexivity).
    destruct (lookup_after_append Customer.id (customers db) c m Hm Hid)
      as [Hnew Hold].
    unfold get_customer_by_id. simpl. rewrite Hid.
    split; [exact Hnew|]. split; [exact Hold|]. repeat split.
  - intros customer_id book_ids now o db' H.
    destruct (create_order_inv _ _ _ _ _ _ H) as (m & Hm & Ho & ->).
    assert (Hid : Order.id o = m + 1) by (rewrite Ho; reflexivity).
    destruct (lookup_after_append Order.id (orders db) o m Hm Hid)
      as [Hnew Hold].
    unfold get_order_by_id. simpl. rewrite Hid.
    split; [exact Hnew|]. split; [exact Hold|]. repeat split.
Qed.

Lemma creation_then_lookup_witness :
  exists b db',
    create_book _init_data "Emma" 3 21.5%float "Romance" 1815
      "978-0141439587" = Ok (b, db')
    /\ get_book_by_id db' (Book.id b) = Some b
    /\ get_book_by_id db' 4 = get_book_by_id _init_data 4.
Proof.
  eexists; eexists. split; [vm_compute; reflexivity|].
  destruct (creation_then_lookup _init_data) as (T & _).
  destruct (T "Emma" 3 21.5%float "Romance" 1815 "978-0141439587" _ _
              eq_refl) as (Hnew & Hold & _).
  split; [exact Hnew|]. apply Hold. discriminate.
Defined.

(** ** The stores that can arise *)

(** One call of a mutator of [MockDatabase] that returns. *)
Inductive step (db db' : t) : Prop :=
| step_book title author_id price genre published_year isbn b :
    create_book db title author_id price genre published_year isbn
    = Ok (b, db') -> step db db'
| step_customer name email now c :
    create_customer db name email now = Ok (c, db') -> step db db'
| step_order customer_id book_ids now o :
    create_order db customer_id book_ids now = Ok (o, db') -> step db db'.

(** The stores reached from the seed data. *)
Inductive reachable : t -> Prop :=
| reachable_init : reachable _init_data
| reachable_step db db' : reachable db -> step db db' -> reachable db'.

(** A collection has ids in good order: there is at least one, no two are
    equal, all are positive. *)
Definition good_ids (ids : list Z) : Prop :=
  ids <> [] /\ NoDup ids /\ forall x, In x ids -> 1 <= x.

Definition well_keyed (db : t) : Prop :=
  good_ids (map Author.id (authors db))
  /\ good_ids (map Book.id (books db))
  /\ good_ids (map Customer.id (customers db))
  /\ good_ids (map Order.id (orders db)).

Lemma good_ids_snoc (ids : list Z) (m : Z) :
  good_ids ids -> is_max m ids -> good_ids (ids ++ [m + 1])%list.
Proof.
  intros (Hne & Hnd & Hpos) [Hin Hub]. split; [|split].
  - destruct ids; discriminate.
  - apply NoDup_app; [assumption|repeat constructor; intros []|].
    intros a Ha [<-|[]]. apply Hub in Ha. lia.
  - intros x Hx. apply in_app_or in Hx. destruct Hx as [Hx|[<-|[]]].
    + now apply Hpos.
    + apply Hpos in Hin. lia.
Qed.

Lemma good_ids_seed : well_keyed _init_data.
Proof.
  unfold well_keyed, good_ids. simpl.
  repeat split; try discriminate;
    try (repeat constructor; simpl; intuition discriminate);
    intros x Hx; simpl in Hx; intuition lia.
Qed.

Lemma step_well_keyed (db db' : t) :
  well_keyed db -> step db db' -> well_keyed db'.
Proof.
  intros (Ha & Hb & Hc & Ho) Hstep. destruct Hstep as
    [title author_id price genre published_year isbn b H
    |name email now c H
    |customer_id book_ids now o H].
  - destruct (create_book_inv _ _ _ _ _ _ _ _ _ H) as (m & Hm & -> & ->).
    unfold well_keyed. simpl. rewrite map_app. simpl.
    repeat split; try apply Ha; try apply Hc; try apply Ho;
      apply (good_ids_snoc _ _ Hb Hm).
  - destruct (create_customer_inv _ _ _ _ _ _ H) as (m & Hm & -> & ->).
    unfold well_keyed. simpl. rewrite map_app. simpl.
    repeat split; try apply Ha; try apply Hb; try apply Ho;
      apply (good_ids_snoc _ _ Hc Hm).
  - destruct (create_order_inv _ _ _ _ _ _ H) as (m & Hm & -> & ->).
    unfold well_keyed. simpl. rewrite map_app. simpl.
    repeat split; try apply Ha; try apply Hb; try apply Hc;
      apply (good_ids_snoc _ _ Ho Hm).
Qed.

Lemma reachable_well_keyed (db : t) : reachable db -> well_keyed db.
Proof.
  induction 1 as [|db db' _ IH Hstep].
  - exact good_ids_seed.
  - exact (step_well_keyed _ _ IH Hstep).
Qed.

Lemma good_ids_nonempty {A : Type} (id_of : A -> Z) (l : list A) :
  good_ids (map id_of l) -> l <> [].
Proof. intros (Hne & _) ->. now apply Hne. Qed.

(** X2.  On every store reached from the seed data by creations, each of
    the four collections is non-empty and its ids are pairwise distinct and
    positive; hence none of the three creators ever raises there. *)
Theorem reachable_store_is_well_keyed (db : t) :
  reachable db ->
  well_keyed db
  /\ (forall title author_id price genre published_year isbn,
        exists b db',
          create_book db title author_id price genre published_year isbn
          = Ok (b, db') /\ reachable db')
  /\ (forall name email now,
        exists c db',
          create_customer db name email now = Ok (c, db') /\ reachable db')
  /\ (forall customer_id book_ids now,
        exists o db',
          create_order db customer_id book_ids now = Ok (o, db')
          /\ reachable db').
Proof.
  intros Hr. pose proof (reachable_well_keyed db Hr) as Hk.
  split; [exact Hk|]. destruct Hk as (Ha & Hb & Hc & Ho).
  split; [|split].
  - intros title author_id price genre published_year isbn.
    destruct (create_book_next db title author_id price genre published_year
                isbn (good_ids_nonempty _ _ Hb)) as (m & _ & E).
    eexists; eexists. split; [exact E|].
    apply (reachable_step db); [assumption|].
    eapply step_book. exact E.
  - intros name email now.
    destruct (create_customer_next db name email now
                (good_ids_nonempty _ _ Hc)) as (m & _ & E).
    eexists; eexists. split; [exact E|].
    apply (reachable_step db); [assumption|].
    eapply step_customer. exact E.
  - intros customer_id book_ids now.
    destruct (create_order_next db customer_id book_ids now
                (good_ids_nonempty _ _ Ho)) as (m & _ & E).
    eexists; eexists. split; [exact E|].
    apply (reachable_step db); [assumption|].
    eapply step_order. exact E.
Qed.

Lemma reachable_store_is_well_keyed_witness :
  reachable _init_data
  /\ well_keyed _init_data
  /\ exists o db',
       create_order _init_data 2 [3; 4] (mk_datetime 2023 9 1) = Ok (o, db')
       /\ reachable db'.
Proof.
  split; [exact reachable_init|].
  destruct (reachable_store_is_well_keyed _init_data reachable_init)
    as (Hk & _ & _ & To).
  split; [exact Hk|]. exact (To 2 [3; 4] (mk_datetime 2023 9 1)).
Defined.

(** X3.  On every store reached from the seed data, an entity that is in a
    collection is exactly what the lookup by its id returns: enumeration and
    lookup agree, for authors, books, customers and orders. *)
Theorem reachable_lookup_finds_each_entity (db : t) :
  reachable db ->
  (forall a, In a (authors db) -> get_author_by_id db (Author.id a) = Some a)
  /\ (forall b, In b (books db) -> get_book_by_id db (Book.id b) = Some b)
  /\ (forall c, In c (customers db) ->
        get_customer_by_id db (Customer.id c) = Some c)
  /\ (forall o, In o (orders db) -> get_order_by_id db (Order.id o) = Some o).
Proof.
  intros Hr. destruct (reachable_well_keyed db Hr)
    as ((_ & Ha & _) & (_ & Hb & _) & (_ & Hc & _) & (_ & Ho & _)).
  split; [|split; [|split]].
  - intros a. now apply find_unique.
  - intros b. now apply find_unique.
  - intros c. now apply find_unique.
  - intros o. now apply find_unique.
Qed.

Lemma reachable_lookup_finds_each_entity_witness :
  reachable _init_data
  /\ forall b, In b (books _init_data) ->
       get_book_by_id _init_data (Book.id b) = Some b.
Proof.
  split; [exact reachable_init|].
  exact (proj1 (proj2 (reachable_lookup_finds_each_entity _init_data
                         reachable_init))).
Defined.

(** ** Relations after a creation *)

Lemma books_for_ids_after_append (db db' : t) (b : Book.t) (ids : list Z) :
  (forall i, i <> Book.id b -> get_book_by_id db' i = get_book_by_id db i) ->
  get_book_by_id db' (Book.id b) = Some b ->
  books_for_ids db' ids
  = flat_map (fun i => if i =? Book.id b then [b]
                       else match get_book_by_id db i with
                            | Some x => [x]
                            | None => []
                            end) ids.
Proof.
  intros Hold Hnew. induction ids as [|i ids IH]; simpl; [reflexivity|].
  destruct (i =? Book.id b) eqn:Hq.
  - apply Z.eqb_eq in Hq. subst i. rewrite Hnew. simpl. now rewrite IH.
  - apply Z.eqb_neq in Hq. rewrite (Hold i Hq).
    destruct (get_book_by_id db i); simpl; now rewrite IH.
Qed.

(** X4.  A new book joins the list of its own author and, genres being
    ASCII strings, of its own genre (compared without regard to case), at
    the end, and no other list; a new order joins the list of its own
    customer only.  The books an order
    resolves to are unchanged by the creation of a book, except that a
    reference to the new id, which resolved to nothing before, now resolves
    to the new book. *)
Theorem creation_then_relations (db : t) :
  (forall title author_id price genre published_year isbn b db',
     create_book db title author_id price genre published_year isbn
     = Ok (b, db') ->
     (forall a,
        get_books_by_author db' a
        = (get_books_by_author db a
           ++ if author_id =? a then [b] else [])%list)
     /\ (forall g,
          is_ascii genre = true -> is_ascii g = true ->
          get_books_by_genre db' g
          = (get_books_by_genre db g
             ++ if GenreFacts.eq_ignore_case genre g then [b] else [])%list)
     /\ get_book_by_id db (Book.id b) = None
     /\ (forall order,
          get_books_for_order db' order
          = flat_map (fun i => if i =? Book.id b then [b]
                               else match get_book_by_id db i with
                                    | Some x => [x]
                                    | None => []
                                    end) (Order.book_ids order)))
  /\ (forall customer_id book_ids now o db',
        create_order db customer_id book_ids now = Ok (o, db') ->
        forall c,
          get_orders_by_customer db' c
          = (get_orders_by_customer db c
             ++ if customer_id =? c then [o] else [])%list).
Proof.
  split.
  - intros title author_id price genre published_year isbn b db' H.
    destruct (create_book_inv _ _ _ _ _ _ _ _ _ H) as (m & Hm & Hb & Hdb).
    assert (Hid : Book.id b = m + 1) by (rewrite Hb; reflexivity).
    assert (Hnew : get_book_by_id db' (Book.id b) = Some b).
    { rewrite Hdb, Hid. unfold get_book_by_id. simpl.
      apply (lookup_after_append Book.id (books db) b m Hm Hid). }
    assert (Hold : forall i, i <> Book.id b ->
                     get_book_by_id db' i = get_book_by_id db i).
    { intros i Hi. rewrite Hdb. unfold get_book_by_id. simpl.
      apply (lookup_after_append Book.id (books db) b m Hm Hid).
      now rewrite <- Hid. }
    split; [|split; [|split]].
    + intros a. subst db'. unfold get_books_by_author. simpl.
      rewrite filter_app. simpl. now rewrite Hb.
    + intros g _ _. subst db'. unfold get_books_by_genre. simpl.
      rewrite filter_app. simpl. rewrite Hb. simpl.
      now rewrite GenreFacts.lower_eq_ignore_case.
    + destruct (get_book_by_id db (Book.id b)) as [x|] eqn:Hx;
        [|reflexivity].
      apply get_book_by_id_some in Hx. destruct Hx as [Hin Hx].
      assert (Book.id x <= m) by (apply Hm; now apply in_map).
      lia.
    + intros order. unfold get_books_for_order.
      now apply books_for_ids_after_append.
  - intros customer_id book_ids now o db' H c.
    destruct (create_order_inv _ _ _ _ _ _ H) as (m & Hm & Ho & ->).
    unfold get_orders_by_customer. simpl.
    rewrite filter_app. simpl. now rewrite Ho.
Qed.

Lemma creation_then_relations_witness :
  exists b db',
    create_book _init_data "Emma" 3 21.5%float "romance" 1815
      "978-0141439587" = Ok (b, db')
    /\ get_books_by_author db' 3
       = (get_books_by_author _init_data 3 ++ [b])%list
    /\ get_books_by_genre db' "Romance"
       = (get_books_by_genre _init_data "Romance" ++ [b])%list.
Proof.
  eexists; eexists. split; [vm_compute; reflexivity|].
  destruct (creation_then_relations _init_data) as (T & _).
  destruct (T "Emma" 3 21.5%float "romance" 1815 "978-0141439587" _ _
              eq_refl) as (Ha & Hg & _).
  split; [exact (Ha 3)|exact (Hg "Romance" eq_refl eq_refl)].
Defined.

(** ** The total of an order *)

Definition resolves (db : t) (i : Z) : bool :=
  match get_book_by_id db i with
  | Some _ => true
  | None => false
  end.

Lemma order_total_snoc (db : t) (ids : list Z) (i : Z) :
  order_total db (ids ++ [i])
  = match get_book_by_id db i with
    | Some b => (order_total db ids + Book.price b)%float
    | None => order_total db ids
    end.
Proof. unfold order_total. now rewrite fold_left_app. Qed.

Lemma books_for_ids_filter (db : t) (ids : list Z) :
  books_for_ids db (filter (resolves db) ids) = books_for_ids db ids.
Proof.
  induction ids as [|i ids IH]; simpl; [reflexivity|]. unfold resolves at 1.
  destruct (get_book_by_id db i) as [b|] eqn:Hq; simpl;
    rewrite ?Hq; now rewrite IH.
Qed.

(** X5.  Ids that resolve to no book add nothing to a total: the total of
    a list of ids is the total of its resolvable ids, and it is 0.0 when
    none resolves.  Every occurrence of an id counts: adding an id at the end
    adds the price of its book once more, whether or not it was there. *)
Theorem order_total_counts_resolvable_ids (db : t) (ids : list Z) :
  order_total db ids = order_total db (filter (resolves db) ids)
  /\ (filter (resolves db) ids = [] -> order_total db ids = 0%float)
  /\ (forall i b,
        get_book_by_id db i = Some b ->
        order_total db (ids ++ [i])
        = (order_total db ids + Book.price b)%float)
  /\ (forall i,
        get_book_by_id db i = None ->
        order_total db (ids ++ [i]) = order_total db ids).
Proof.
  assert (E : order_total db ids = order_total db (filter (resolves db) ids)).
  { now rewrite !order_total_sum, books_for_ids_filter. }
  split; [exact E|]. split; [|split].
  - intros Hnone. now rewrite E, Hnone.
  - intros i b Hb. now rewrite order_total_snoc, Hb.
  - intros i Hi. now rewrite order_total_snoc, Hi.
Qed.

Lemma order_total_counts_resolvable_ids_witness :
  filter (resolves _init_data) [42; 77] = []
  /\ order_total _init_data [42; 77] = 0%float
  /\ order_total _init_data ([3] ++ [3])
     = (order_total _init_data [3%Z] + 19.99)%float.
Proof.
  destruct (order_total_counts_resolvable_ids _init_data [42; 77])
    as (_ & Hzero & _).
  destruct (order_total_counts_resolvable_ids _init_data [3])
    as (_ & _ & Hadd & _).
  split; [reflexivity|]. split; [exact (Hzero eq_refl)|].
  exact (Hadd 3 _ eq_refl).
Defined.

End StoreLaws.

(** * The dictionaries of the models and the remaining REST routes *)

(** ** shared/models.py: the [to_dict] methods *)

Module ToDict.

Section Iso.

(** [datetime.isoformat()], a function of the standard library. *)
Variable isoformat : datetime -> string.

Definition author_to_dict (self : Author.t) : json_value :=
  JDict [("id", JInt (Author.id self));
         ("name", JStr (Author.name self));
         ("bio", JStr (Author.bio self));
         ("birth_year", JInt (Author.birth_year self))].

(** [Book.to_dict(include_author=False, author=None)] *)
Definition book_to_dict (include_author : bool) (author : option Author.t)
    (self : Book.t) : json_value :=
  let result :=
    [("id", JInt (Book.id self));
     ("title", JStr (Book.title self));
     ("author_id", JInt (Book.author_id self));
     ("price", JFloat (Book.price self));
     ("genre", JStr (Book.genre self));
     ("published_year", JInt (Book.published_year self));
     ("isbn", JStr (Book.isbn self))] in
  match author with
  | Some a =>
      if include_author
      then JDict (Py.dict_set result "author" (author_to_dict a))
      else JDict result
  | None => JDict result
  end.

Definition customer_to_dict (self : Customer.t) : json_value :=
  JDict [("id", JInt (Customer.id self));
         ("name", JStr (Customer.name self));
         ("email", JStr (Customer.email self));
         ("registration_date",
          JStr (isoformat (Customer.registration_date self)))].

(** A list is true in an [if] when it is given and not empty. *)
Definition truthy_list {A : Type} (xs : option (list A)) : bool :=
  match xs with
  | Some (_ :: _) => true
  | _ => false
  end.

(** [Order.to_dict(include_customer=False, include_books=False,
    customer=None, books=None)] *)
Definition order_to_dict (include_customer include_books : bool)
    (customer : option Customer.t) (books : option (list Book.t))
    (self : Order.t) : json_value :=
  let result :=
    [("id", JInt (Order.id self));
     ("customer_id", JInt (Order.customer_id self));
     ("book_ids", JList (map JInt (Order.book_ids self)));
     ("total_amount", JFloat (Order.total_amount self));
     ("order_date", JStr (isoformat (Order.order_date self)))] in
  let result :=
    match customer with
    | Some c =>
        if include_customer
        then Py.dict_set result "customer" (customer_to_dict c)
        else result
    | None => result
    end in
  let result :=
    match books with
    | Some bs =>
        if include_books && truthy_list books
        then Py.dict_set result "books"
               (JList (map (book_to_dict false None) bs))
        else result
    | None => result
    end in
  JDict result.

End Iso.

End ToDict.

(** ** rest_api/app.py: the routes that read *)

Module RestRoutes.

(** [request.args.get(key, default)]: the first value given for the key. *)
Fixpoint args_get (args : list (string * string)) (key default : string)
  : string :=
  match args with
  | [] => default
  | (k, v) :: rest => if String.eqb k key then v else args_get rest key default
  end.

(** [request.args.get(key, "false").lower() == "true"] *)
Definition flag (args : list (string * string)) (key : string) : bool :=
  String.eqb (lower (args_get args key "false")) "true".

Definition error (message : string) : json_value :=
  JDict [("error", JStr message)].

Definition response : Type := (json_value * Z)%type.

(** [request.get_json()] for [POST /api/customers]. *)
Record customer_json : Type := mk_customer_json
  { name : option string; email : option string }.

Section Routes.

Variable isoformat : datetime -> string.
Variable db : MockDatabase.t.

Definition get_books (args : list (string * string)) : response :=
  let include_author := flag args "include_author" in
  (JList
     (map (fun book =>
             if include_author
             then ToDict.book_to_dict true
                    (MockDatabase.get_author_for_book db book) book
             else ToDict.book_to_dict false None book)
        (MockDatabase.get_all_books db)), 200).

Definition get_book (book_id : Z) (args : list (string * string))
  : response :=
  match MockDatabase.get_book_by_id db book_id with
  | None => (error "Book not found", 404)
  | Some book =>
      if flag args "include_author"
      then (ToDict.book_to_dict true
              (MockDatabase.get_author_for_book db book) book, 200)
      else (ToDict.book_to_dict false None book, 200)
  end.

Definition get_books_by_genre (genre : string) : response :=
  (JList (map (ToDict.book_to_dict false None)
            (MockDatabase.get_books_by_genre db genre)), 200).

Definition get_authors : response :=
  (JList (map ToDict.author_to_dict (MockDatabase.authors db)), 200).

Definition get_author (author_id : Z) : response :=
  match MockDatabase.get_author_by_id db author_id with
  | None => (error "Author not found", 404)
  | Some author => (ToDict.author_to_dict author, 200)
  end.

Definition get_author_books (author_id : Z) : response :=
  match MockDatabase.get_author_by_id db author_id with
  | None => (error "Author not found", 404)
  | Some _ =>
      (JList (map (ToDict.book_to_dict false None)
                (MockDatabase.get_books_by_author db author_id)), 200)
  end.

Definition get_customers : response :=
  (JList (map (ToDict.customer_to_dict isoformat)
            (MockDatabase.customers db)), 200).

Definition get_customer (customer_id : Z) : response :=
  match MockDatabase.get_customer_by_id db customer_id with
  | None => (error "Customer not found", 404)
  | Some customer => (ToDict.customer_to_dict isoformat customer, 200)
  end.

Definition get_customer_orders (customer_id : Z)
    (args : list (string * string)) : response :=
  match MockDatabase.get_customer_by_id db customer_id with
  | None => (error "Customer not found", 404)
  | Some _ =>
      let include_books := flag args "include_books" in
      (JList
         (map (fun order =>
                 if include_books
                 then ToDict.order_to_dict isoformat false true None
                        (Some (MockDatabase.get_books_for_order db order))
                        order
                 else ToDict.order_to_dict isoformat false false None None
                        order)
            (MockDatabase.get_orders_by_customer db customer_id)), 200)
  end.

Definition get_orders : response :=
  (JList (map (ToDict.order_to_dict isoformat false false None None)
            (MockDatabase.orders db)), 200).

Definition get_order (order_id : Z) (args : list (string * string))
  : response :=
  match MockDatabase.get_order_by_id db order_id with
  | None => (error "Order not found", 404)
  | Some order =>
      let include_customer := flag args "include_customer" in
      let include_books := flag args "include_books" in
      let customer :=
        if include_customer
        then MockDatabase.get_customer_for_order db order else None in
      let books :=
        if include_books
        then Some (MockDatabase.get_books_for_order db order) else None in
      (ToDict.order_to_dict isoformat include_customer include_books
         customer books order, 200)
  end.

Definition create_customer (data : customer_json) (now : datetime)
  : response * MockDatabase.t :=
  match name data, email data with
  | None, _ => ((error "Missing required field: name", 400), db)
  | _, None => ((error "Missing required field: email", 400), db)
  | Some n, Some e =>
      match MockDatabase.create_customer db n e now with
      | Ok (customer, db') =>
          ((ToDict.customer_to_dict isoformat customer, 201), db')
      | Raise exc => ((error (str_of_exn exc), 400), db)
      end
  end.

End Routes.

End RestRoutes.

(** * Properties of the dictionaries and of the REST routes *)

Module RestLaws.

Import MockDatabase.

(** The value under a key of a dictionary. *)
Definition field (v : json_value) (key : string) : option json_value :=
  match v with
  | JDict d => Py.dict_get d key
  | _ => None
  end.

Section Iso.

Variable isoformat : datetime -> string.

(** X6.  The optional keys of the dictionaries.  [author] is present
    exactly when it is asked for and an author is given; [customer]
    likewise; [books] is present exactly when it is asked for and the list
    given holds at least one book, an empty list leaving the key out.  The
    keys of the entity itself are there whatever the options. *)
Theorem to_dict_optional_keys (include_author include_customer
    include_books : bool) (author : option Author.t)
    (customer : option Customer.t) (books : option (list Book.t))
    (book : Book.t) (order : Order.t) :
  field (ToDict.book_to_dict include_author author book) "author"
  = (if include_author then option_map ToDict.author_to_dict author
     else None)
  /\ field (ToDict.order_to_dict isoformat include_customer include_books
              customer books order) "customer"
     = (if include_customer
        then option_map (ToDict.customer_to_dict isoformat) customer
        else None)
  /\ field (ToDict.order_to_dict isoformat include_customer include_books
              customer books order) "books"
     = (if include_books
        then match books with
             | Some (b :: bs) =>
                 Some (JList (map (ToDict.book_to_dict false None) (b :: bs)))
             | _ => None
             end
        else None)
  /\ field (ToDict.book_to_dict include_author author book) "id"
     = Some (JInt (Book.id book))
  /\ field (ToDict.book_to_dict include_author author book) "price"
     = Some (JFloat (Book.price book))
  /\ field (ToDict.order_to_dict isoformat include_customer include_books
              customer books order) "book_ids"
     = Some (JList (map JInt (Order.book_ids order)))
  /\ field (ToDict.order_to_dict isoformat include_customer include_books
              customer books order) "total_amount"
     = Some (JFloat (Order.total_amount order)).
Proof.
  destruct include_author, include_customer, include_books,
    author as [a|], customer as [c|], books as [[|b bs]|];
    repeat split; reflexivity.
Qed.

(** X7.  A plain dictionary loses nothing: two authors, or two books, with
    the same dictionary are the same; two customers, or two orders, with the
    same dictionary agree on every field, their dates as far as
    [isoformat] prints them. *)
Theorem to_dict_is_injective :
  (forall a1 a2,
     ToDict.author_to_dict a1 = ToDict.author_to_dict a2 -> a1 = a2)
  /\ (forall b1 b2,
        ToDict.book_to_dict false None b1 = ToDict.book_to_dict false None b2
        -> b1 = b2)
  /\ (forall c1 c2,
        ToDict.customer_to_dict isoformat c1
        = ToDict.customer_to_dict isoformat c2 ->
        Customer.id c1 = Customer.id c2
        /\ Customer.name c1 = Customer.name c2
        /\ Customer.email c1 = Customer.email c2
        /\ isoformat (Customer.registration_date c1)
           = isoformat (Customer.registration_date c2))
  /\ (forall o1 o2,
        ToDict.order_to_dict isoformat false false None None o1
        = ToDict.order_to_dict isoformat false false None None o2 ->
        Order.id o1 = Order.id o2
        /\ Order.customer_id o1 = Order.customer_id o2
        /\ Order.book_ids o1 = Order.book_ids o2
        /\ Order.total_amount o1 = Order.total_amount o2
        /\ isoformat (Order.order_date o1) = isoformat (Order.order_date o2)).
Proof.
  split; [|split; [|split]].
  - intros [i1 n1 b1 y1] [i2 n2 b2 y2] H. injection H. congruence.
  - intros [i1 t1 a1 p1 g1 y1 s1] [i2 t2 a2 p2 g2 y2 s2] H.
    injection H. congruence.
  - intros [i1 n1 e1 d1] [i2 n2 e2 d2] H. injection H. simpl.
    intros. repeat split; assumption.
  - intros [i1 c1 b1 t1 d1] [i2 c2 b2 t2 d2] H. injection H. simpl.
    intros Hd Ht Hb Hc Hi. repeat split; try assumption.
    clear -Hb. revert b2 Hb. induction b1 as [|x l IH]; intros [|y l'] Hb;
      simpl in Hb; try discriminate; [reflexivity|].
    injection Hb as -> Hl. f_equal. now apply IH.
Qed.

End Iso.

(** ** The routes that read *)

Lemma find_id_none {A : Type} (id_of : A -> Z) (l : list A) (i : Z) :
  find (fun y => id_of y =? i) l = None <-> ~ In i (map id_of l).
Proof.
  induction l as [|x l IH]; simpl; [tauto|].
  destruct (id_of x =? i) eqn:Hq.
  - apply Z.eqb_eq in Hq. split; [discriminate|]. intros H. exfalso.
    apply H. now left.
  - apply Z.eqb_neq in Hq. rewrite IH. tauto.
Qed.

Lemma books_for_ids_nil (db : t) (ids : list Z) :
  books_for_ids db ids = [] <->
  forall i, In i ids -> get_book_by_id db i = None.
Proof.
  induction ids as [|i ids IH]; simpl.
  - split; [intros _ i []|reflexivity].
  - destruct (get_book_by_id db i) as [b|] eqn:Hq.
    + split; [discriminate|]. intros H.
      specialize (H i (or_introl eq_refl)). congruence.
    + rewrite IH. split.
      * intros H j [<-|Hj]; [assumption|now apply H].
      * intros H j Hj. apply H. now right.
Qed.

(** Closes a goal on a lookup whose outcome [Hq] and the membership [Hin]
    of the id either agree or contradict each other. *)
Ltac settle_lookup id_of Hq Hin :=
  try reflexivity;
  exfalso;
  first
    [ apply (find_id_none id_of) in Hq; contradiction
    | apply Hin; apply find_some in Hq; destruct Hq as [Hx Hi];
      apply Z.eqb_eq in Hi; rewrite <- Hi; now apply in_map ].

Section Routes.

Variable isoformat : datetime -> string.
Variable db : t.

(** X8.  A route that takes an id answers 404 exactly when the collection
    it looks in holds no entity with that id, and 200 otherwise, whatever
    the query parameters.  The two nested routes look the parent up: the
    books of an author that is not there are not listed, even when books
    carry that author_id. *)
Theorem not_found_iff_absent (i : Z) (args : list (string * string)) :
  (snd (RestRoutes.get_book db i args)
   = (if in_dec Z.eq_dec i (map Book.id (books db)) then 200 else 404))
  /\ (snd (RestRoutes.get_author db i)
      = (if in_dec Z.eq_dec i (map Author.id (authors db)) then 200
         else 404))
  /\ (snd (RestRoutes.get_author_books db i)
      = (if in_dec Z.eq_dec i (map Author.id (authors db)) then 200
         else 404))
  /\ (snd (RestRoutes.get_customer isoformat db i)
      = (if in_dec Z.eq_dec i (map Customer.id (customers db)) then 200
         else 404))
  /\ (snd (RestRoutes.get_customer_orders isoformat db i args)
      = (if in_dec Z.eq_dec i (map Customer.id (customers db)) then 200
         else 404))
  /\ (snd (RestRoutes.get_order isoformat db i args)
      = (if in_dec Z.eq_dec i (map Order.id (orders db)) then 200 else 404)).
Proof.
  unfold RestRoutes.get_book, RestRoutes.get_author,
    RestRoutes.get_author_books, RestRoutes.get_customer,
    RestRoutes.get_customer_orders, RestRoutes.get_order,
    get_book_by_id, get_author_by_id, get_customer_by_id, get_order_by_id.
  repeat split.
  - destruct (find _ (books db)) eqn:Hq;
      destruct (in_dec Z.eq_dec i (map Book.id (books db))) as [Hin|Hin];
      try destruct (RestRoutes.flag args "include_author");
      settle_lookup Book.id Hq Hin.
  - destruct (find _ (authors db)) eqn:Hq;
      destruct (in_dec Z.eq_dec i (map Author.id (authors db))) as [Hin|Hin];
      settle_lookup Author.id Hq Hin.
  - destruct (find _ (authors db)) eqn:Hq;
      destruct (in_dec Z.eq_dec i (map Author.id (authors db))) as [Hin|Hin];
      settle_lookup Author.id Hq Hin.
  - destruct (find _ (customers db)) eqn:Hq;
      destruct (in_dec Z.eq_dec i (map Customer.id (customers db)))
        as [Hin|Hin]; settle_lookup Customer.id Hq Hin.
  - destruct (find _ (customers db)) eqn:Hq;
      destruct (in_dec Z.eq_dec i (map Customer.id (customers db)))
        as [Hin|Hin]; settle_lookup Customer.id Hq Hin.
  - destruct (find _ (orders db)) eqn:Hq;
      destruct (in_dec Z.eq_dec i (map Order.id (orders db))) as [Hin|Hin];
      settle_lookup Order.id Hq Hin.
Qed.

(** X9.  References that resolve to nothing are tolerated by the routes
    that embed related data.  A book whose author is not in the store is
    answered as the plain book, with or without [include_author].  With
    [include_books] an order carries the key [books] exactly when at least
    one of its book ids resolves, and the key then lists the dictionaries
    of the books the store resolves, in order. *)
Theorem embedded_relations_tolerate_dangling (i : Z)
    (args : list (string * string)) :
  (forall book,
     get_book_by_id db i = Some book ->
     get_author_for_book db book = None ->
     RestRoutes.get_book db i args
     = (ToDict.book_to_dict false None book, 200))
  /\ (forall order,
        get_order_by_id db i = Some order ->
        RestRoutes.flag args "include_books" = true ->
        (field (fst (RestRoutes.get_order isoformat db i args)) "books" = None
         <-> forall j, In j (Order.book_ids order) ->
               get_book_by_id db j = None)
        /\ (get_books_for_order db order <> [] ->
            field (fst (RestRoutes.get_order isoformat db i args)) "books"
            = Some (JList (map (ToDict.book_to_dict false None)
                             (get_books_for_order db order)))))
  /\ (forall order,
        get_order_by_id db i = Some order ->
        RestRoutes.flag args "include_customer" = true ->
        get_customer_for_order db order = None ->
        field (fst (RestRoutes.get_order isoformat db i args)) "customer"
        = None).
Proof.
  split; [|split].
  - intros book Hb Ha. unfold RestRoutes.get_book. rewrite Hb, Ha.
    now destruct (RestRoutes.flag args "include_author").
  - intros order Ho Hflag. unfold RestRoutes.get_order.
    rewrite Ho, Hflag. unfold get_books_for_order.
    rewrite <- books_for_ids_nil.
    destruct (RestRoutes.flag args "include_customer");
      destruct (get_customer_for_order db order);
      destruct (books_for_ids db (Order.book_ids order)) as [|b bs];
      simpl; (split; [split; intros H; try reflexivity; try discriminate H
                     |intros H; try reflexivity; now contradiction H]).
  - intros order Ho Hflag Hc. unfold RestRoutes.get_order.
    rewrite Ho, Hflag, Hc.
    destruct (RestRoutes.flag args "include_books");
      destruct (get_books_for_order db order) as [|b bs]; reflexivity.
Qed.

End Routes.

(** A store with a book whose author is not there and an order whose only
    book id resolves to nothing. *)
Definition dangling_db : t :=
  {| authors := authors _init_data;
     books := books _init_data
              ++ [Book.mk 10 "Emma" 999 21.5%float "Romance" 1815
                    "978-0141439587"];
     customers := customers _init_data;
     orders := orders _init_data
               ++ [Order.mk 6 1 [42] 0%float (mk_datetime 2023 9 1)] |}.

Lemma embedded_relations_tolerate_dangling_witness :
  RestRoutes.get_book dangling_db 10 [("include_author", "TRUE")]
  = RestRoutes.get_book dangling_db 10 []
  /\ field (fst (RestRoutes.get_order (fun _ => "2023-09-01T00:00:00")
                   dangling_db 6 [("include_books", "true")])) "books"
     = None.
Proof.
  destruct (embedded_relations_tolerate_dangling
              (fun _ => "2023-09-01T00:00:00") dangling_db 10
              [("include_author", "TRUE")]) as (Tbook & _).
  destruct (embedded_relations_tolerate_dangling
              (fun _ => "2023-09-01T00:00:00") dangling_db 6
              [("include_books", "true")]) as (_ & Torder & _).
  split.
  - rewrite (Tbook _ eq_refl eq_refl). reflexivity.
  - destruct (Torder _ eq_refl eq_refl) as (Hnone & _).
    apply Hnone. intros j [<-|[]]. reflexivity.
Defined.

(** ** The routes that create *)

Lemma rest_create_order_cases (db db' : t) (data : RestApp.order_json)
    (now : datetime) (resp : RestApp.response) :
  RestApp.create_order db data now = (resp, db') ->
  (db' = db /\ (snd resp = 400 \/ snd resp = 404)
   /\ exists msg, fst resp = RestApp.ErrorBody msg)
  \/ (exists cid bids o,
        data = RestApp.mk_order_json (Some cid) (Some bids)
        /\ get_customer_by_id db cid <> None
        /\ (forall i, In i bids -> get_book_by_id db i <> None)
        /\ create_order db cid bids now = Ok (o, db')
        /\ resp = (RestApp.OrderBody o, 201)).
Proof.
  destruct data as [[cid|] [bids|]]; unfold RestApp.create_order; simpl;
    try (intros H; injection H as <- <-; left;
         split; [reflexivity|split; [now left|eexists; reflexivity]]).
  destruct (get_customer_by_id db cid) as [c|] eqn:Hc;
    [|intros H; injection H as <- <-; left;
      split; [reflexivity|split; [now right|eexists; reflexivity]]].
  destruct (RestApp.first_unknown_book db bids) as [b|] eqn:Hb;
    [intros H; injection H as <- <-; left;
     split; [reflexivity|split; [now right|eexists; reflexivity]]|].
  destruct (create_order db cid bids now) as [[o db1]|e] eqn:Ho;
    intros H; injection H as <- <-.
  - right. exists cid, bids, o. split; [reflexivity|].
    split; [congruence|]. split; [|split; [exact Ho|reflexivity]].
    exact (ForeignKeyFacts.first_unknown_book_none _ _ Hb).
  - left. split; [reflexivity|split; [now left|eexists; reflexivity]].
Qed.

Lemma rest_create_book_cases (db db' : t) (data : RestApp.book_json)
    (resp : RestApp.response) :
  RestApp.create_book db data = (resp, db') ->
  (db' = db /\ snd resp = 400
   /\ exists msg, fst resp = RestApp.ErrorBody msg)
  \/ (exists title author_id price genre published_year isbn b,
        create_book db title author_id price genre published_year isbn
        = Ok (b, db')
        /\ resp = (RestApp.BookBody b, 201)).
Proof.
  destruct data as [[t0|] [a|] [p|] [g|] [y|] [i|]];
    unfold RestApp.create_book; simpl;
    try (intros H; injection H as <- <-; left;
         split; [reflexivity|split; [reflexivity|eexists; reflexivity]]).
  destruct (create_book db t0 a p g y i) as [[b db1]|e] eqn:Hb;
    intros H; injection H as <- <-.
  - right. exists t0, a, p, g, y, i, b. split; [assumption|reflexivity].
  - left. split; [reflexivity|split; [reflexivity|eexists; reflexivity]].
Qed.

Lemma rest_create_customer_cases (isoformat : datetime -> string)
    (db db' : t) (data : RestRoutes.customer_json) (now : datetime)
    (resp : RestRoutes.response) :
  RestRoutes.create_customer isoformat db data now = (resp, db') ->
  (db' = db /\ snd resp = 400
   /\ exists msg, fst resp = RestRoutes.error msg)
  \/ (exists name email c,
        create_customer db name email now = Ok (c, db')
        /\ resp = (ToDict.customer_to_dict isoformat c, 201)).
Proof.
  destruct data as [[n|] [e|]]; unfold RestRoutes.create_customer; simpl;
    try (intros H; injection H as <- <-; left;
         split; [reflexivity|split; [reflexivity|eexists; reflexivity]]).
  destruct (create_customer db n e now) as [[c db1]|exc] eqn:Hc;
    intros H; injection H as <- <-.
  - right. exists n, e, c. split; [assumption|reflexivity].
  - left. split; [reflexivity|split; [reflexivity|eexists; reflexivity]].
Qed.

(** X10.  The three creating routes, on the request bodies the typed
    records describe: every field that is present has the type the handler
    expects (an integer, a string, a number, a list of integers for
    [book_ids]).  On such a body a route changes the store only when it
    answers 201, and then by exactly one entity appended to its own
    collection, the other collections staying as they were; every other
    answer is a 400 or a 404 with an error message and leaves the store as
    it was.  Bodies of another shape, which can make a handler raise
    outside its [try], are not covered. *)
Theorem creating_routes_change_store_only_on_201
    (isoformat : datetime -> string) (db db' : t) :
  (forall data now resp,
     RestApp.create_order db data now = (resp, db') ->
     ((snd resp = 400 \/ snd resp = 404) /\ db' = db
      /\ exists msg, fst resp = RestApp.ErrorBody msg)
     \/ (snd resp = 201
         /\ exists o,
              fst resp = RestApp.OrderBody o
              /\ orders db' = (orders db ++ [o])%list
              /\ authors db' = authors db /\ books db' = books db
              /\ customers db' = customers db))
  /\ (forall data resp,
        RestApp.create_book db data = (resp, db') ->
        (snd resp = 400 /\ db' = db
         /\ exists msg, fst resp = RestApp.ErrorBody msg)
        \/ (snd resp = 201
            /\ exists b,
                 fst resp = RestApp.BookBody b
                 /\ books db' = (books db ++ [b])%list
                 /\ authors db' = authors db
                 /\ customers db' = customers db /\ orders db' = orders db))
  /\ (forall data now resp,
        RestRoutes.create_customer isoformat db data now = (resp, db') ->
        (snd resp = 400 /\ db' = db
         /\ exists msg, fst resp = RestRoutes.error msg)
        \/ (snd resp = 201
            /\ exists c,
                 fst resp = ToDict.customer_to_dict isoformat c
                 /\ customers db' = (customers db ++ [c])%list
                 /\ authors db' = authors db /\ books db' = books db
                 /\ orders db' = orders db)).
Proof.
  split; [|split].
  - intros data now resp H.
    destruct (rest_create_order_cases _ _ _ _ _ H)
      as [(-> & Hs & Hm)|(cid & bids & o & _ & _ & _ & Ho & ->)].
    + left. now repeat split.
    + right. split; [reflexivity|]. exists o.
      destruct (StoreLaws.create_order_inv _ _ _ _ _ _ Ho)
        as (m & _ & _ & ->).
      repeat split.
  - intros data resp H.
    destruct (rest_create_book_cases _ _ _ _ H)
      as [(-> & Hs & Hm)|(t0 & a & p & g & y & i & b & Hb & ->)].
    + left. now repeat split.
    + right. split; [reflexivity|]. exists b.
      destruct (StoreLaws.create_book_inv _ _ _ _ _ _ _ _ _ Hb)
        as (m & _ & _ & ->).
      repeat split.
  - intros data now resp H.
    destruct (rest_create_customer_cases _ _ _ _ _ _ H)
      as [(-> & Hs & Hm)|(n & e & c & Hc & ->)].
    + left. now repeat split.
    + right. split; [reflexivity|]. exists c.
      destruct (StoreLaws.create_customer_inv _ _ _ _ _ _ Hc)
        as (m & _ & _ & ->).
      repeat split.
Qed.

Lemma creating_routes_change_store_only_on_201_witness :
  exists resp,
    RestApp.create_order _init_data
      (RestApp.mk_order_json (Some 1) (Some [1; 42]))
      (mk_datetime 2023 9 1) = (resp, _init_data)
    /\ snd resp = 404.
Proof.
  eexists. split; [vm_compute; reflexivity|].
  destruct (creating_routes_change_store_only_on_201
              (fun _ => "") _init_data _init_data) as (T & _).
  destruct (T (RestApp.mk_order_json (Some 1) (Some [1; 42]))
              (mk_datetime 2023 9 1)
              (RestApp.ErrorBody "Book with ID 42 not found", 404) eq_refl)
    as [(Hs & _)|(Hs & _)]; [|discriminate Hs].
  destruct Hs as [Hs|Hs]; [discriminate Hs|exact Hs].
Defined.

(** ** The stores the REST routes can produce *)

(** One request to a creating route, whatever it answers. *)
Definition rest_step (db db' : t) : Prop :=
  (exists data now resp, RestApp.create_order db data now = (resp, db'))
  \/ (exists data resp, RestApp.create_book db data = (resp, db'))
  \/ (exists isoformat data now resp,
        RestRoutes.create_customer isoformat db data now = (resp, db')).

Inductive rest_reachable : t -> Prop :=
| rest_init : rest_reachable _init_data
| rest_next db db' : rest_reachable db -> rest_step db db' ->
                     rest_reachable db'.

(** Every order names a customer and books that are in the store. *)
Definition orders_resolve (db : t) : Prop :=
  forall o, In o (orders db) ->
    get_customer_for_order db o <> None
    /\ forall i, In i (Order.book_ids o) -> get_book_by_id db i <> None.

Lemma find_snoc_keeps {A : Type} (f : A -> bool) (l : list A) (a : A) :
  find f l <> None -> find f (l ++ [a]) <> None.
Proof.
  induction l as [|x l IH]; simpl; [congruence|].
  destruct (f x); [congruence|exact IH].
Qed.

Lemma books_for_ids_all (db : t) (ids : list Z) :
  (forall i, In i ids -> get_book_by_id db i <> None) ->
  map Book.id (books_for_ids db ids) = ids.
Proof.
  induction ids as [|i ids IH]; simpl; [reflexivity|]. intros H.
  destruct (get_book_by_id db i) as [b|] eqn:Hq.
  - apply StoreFacts.get_book_by_id_some in Hq. destruct Hq as [_ <-].
    simpl. f_equal. apply IH. intros j Hj. apply H. now right.
  - exfalso. now apply (H i (or_introl eq_refl)).
Qed.

Lemma orders_resolve_seed : orders_resolve _init_data.
Proof.
  intros o Ho. simpl in Ho.
  repeat (destruct Ho as [<-|Ho]; [split; [discriminate|];
    intros i Hi; simpl in Hi;
    repeat (destruct Hi as [<-|Hi]; [discriminate|]); contradiction|]).
  contradiction.
Qed.

Lemma orders_resolve_step (db db' : t) :
  orders_resolve db -> rest_step db db' -> orders_resolve db'.
Proof.
  intros Hres [(data & now & resp & H)|[(data & resp & H)
                                       |(iso & data & now & resp & H)]].
  - destruct (rest_create_order_cases _ _ _ _ _ H)
      as [(-> & _)|(cid & bids & o & _ & Hc & Hb & Ho & _)];
      [assumption|].
    destruct (StoreLaws.create_order_inv _ _ _ _ _ _ Ho)
      as (m & _ & -> & ->).
    intros o' Hin. simpl in Hin. apply in_app_or in Hin.
    destruct Hin as [Hin|[<-|[]]].
    + exact (Hres o' Hin).
    + split; assumption.
  - destruct (rest_create_book_cases _ _ _ _ H)
      as [(-> & _)|(t0 & a & p & g & y & i & b & Hb & _)]; [assumption|].
    destruct (StoreLaws.create_book_inv _ _ _ _ _ _ _ _ _ Hb)
      as (m & _ & _ & ->).
    intros o Hin. simpl in Hin. destruct (Hres o Hin) as [Hc Hbooks].
    split; [exact Hc|]. intros j Hj. unfold get_book_by_id. simpl.
    apply find_snoc_keeps. exact (Hbooks j Hj).
  - destruct (rest_create_customer_cases _ _ _ _ _ _ H)
      as [(-> & _)|(n & e & c & Hc & _)]; [assumption|].
    destruct (StoreLaws.create_customer_inv _ _ _ _ _ _ Hc)
      as (m & _ & _ & ->).
    intros o Hin. simpl in Hin. destruct (Hres o Hin) as [Hcust Hbooks].
    split; [|exact Hbooks].
    unfold get_customer_for_order, get_customer_by_id. simpl.
    apply find_snoc_keeps. exact Hcust.
Qed.

Lemma rest_reachable_resolve (db : t) :
  rest_reachable db -> orders_resolve db.
Proof.
  induction 1 as [|db db' _ IH Hstep].
  - exact orders_resolve_seed.
  - exact (orders_resolve_step _ _ IH Hstep).
Qed.

(** X11.  Whatever requests the creating routes of the REST interface
    receive, starting from the seed data, every order in the store names a
    customer that is in the store and only books that are in the store; so
    the books of an order are resolved one for one, none dropped, and its
    customer is found. *)
Theorem rest_orders_never_dangle (db : t) :
  rest_reachable db ->
  forall o, In o (orders db) ->
    (exists c, get_customer_for_order db o = Some c
               /\ Customer.id c = Order.customer_id o)
    /\ map Book.id (get_books_for_order db o) = Order.book_ids o.
Proof.
  intros Hr o Hin. destruct (rest_reachable_resolve db Hr o Hin) as [Hc Hb].
  split.
  - destruct (get_customer_for_order db o) as [c|] eqn:Hq; [|congruence].
    exists c. split; [reflexivity|].
    unfold get_customer_for_order, get_customer_by_id in Hq.
    apply find_some in Hq. destruct Hq as [_ Hq]. now apply Z.eqb_eq.
  - unfold get_books_for_order. now apply books_for_ids_all.
Qed.

Lemma rest_orders_never_dangle_witness :
  exists resp db',
    RestApp.create_order _init_data
      (RestApp.mk_order_json (Some 2) (Some [3; 3; 4]))
      (mk_datetime 2023 9 1) = (resp, db')
    /\ rest_reachable db'
    /\ forall o, In o (orders db') ->
         map Book.id (get_books_for_order db' o) = Order.book_ids o.
Proof.
  eexists; eexists. split; [vm_compute; reflexivity|].
  match goal with
  | |- rest_reachable ?d /\ _ =>
      assert (Hr : rest_reachable d)
  end.
  { apply (rest_next _init_data); [exact rest_init|].
    left.
    exists (RestApp.mk_order_json (Some 2) (Some [3; 3; 4])),
      (mk_datetime 2023 9 1),
      (fst (RestApp.create_order _init_data
              (RestApp.mk_order_json (Some 2) (Some [3; 3; 4]))
              (mk_datetime 2023 9 1))).
    vm_compute. reflexivity. }
  split; [exact Hr|]. intros o Hin.
  exact (proj2 (rest_orders_never_dangle _ Hr o Hin)).
Defined.

End RestLaws.

(** * Further properties of the GraphQL resolvers *)

Module SchemaLaws.

(** ** Substrings *)

Lemma prefix_app (s1 s2 : string) :
  prefix s1 s2 = true <-> exists t, s2 = s1 ++ t.
Proof.
  revert s2; induction s1 as [|a s1 IH]; intros s2.
  - split; [intros _; now exists s2|]. intros _. now destruct s2.
  - destruct s2 as [|b s2]; simpl.
    + split; [discriminate|]. intros (t & H). discriminate H.
    + destruct (ascii_dec a b) as [->|Hab].
      * rewrite IH. split; intros (t & H); exists t; [now rewrite H|].
        now injection H.
      * split; [discriminate|]. intros (t & H). injection H. congruence.
Qed.

Lemma contains_unfold (needle haystack : string) :
  contains needle haystack
  = if prefix needle haystack then true
    else match haystack with
         | EmptyString => false
         | String _ rest => contains needle rest
         end.
Proof. destruct haystack; reflexivity. Qed.

(** [contains] is the test "is a substring of". *)
Lemma contains_spec (needle haystack : string) :
  contains needle haystack = true <->
  exists pre post, haystack = pre ++ needle ++ post.
Proof.
  split.
  - induction haystack as [|c rest IH]; rewrite contains_unfold;
      destruct (prefix needle _) eqn:Hp.
    + intros _. apply prefix_app in Hp. destruct Hp as (t & ->).
      now exists "", t.
    + discriminate.
    + intros _. apply prefix_app in Hp. destruct Hp as (t & ->).
      now exists "", t.
    + intros H. destruct (IH H) as (pre & post & ->).
      now exists (String c pre), post.
  - intros (pre & post & ->). induction pre as [|c pre IH].
    + rewrite contains_unfold.
      assert (Hp : prefix needle ("" ++ needle ++ post) = true)
        by (apply prefix_app; now exists post).
      now rewrite Hp.
    + rewrite contains_unfold.
      destruct (prefix needle _); [reflexivity|exact IH].
Qed.

Lemma lower_app (s1 s2 : string) : lower (s1 ++ s2) = lower s1 ++ lower s2.
Proof. induction s1 as [|c s1 IH]; simpl; [reflexivity|now rewrite IH]. Qed.

Lemma lower_split (s a b : string) :
  lower s = a ++ b ->
  exists s1 s2, s = s1 ++ s2 /\ lower s1 = a /\ lower s2 = b.
Proof.
  revert s; induction a as [|c a IH]; intros s H.
  - now exists "", s.
  - destruct s as [|d s]; [discriminate H|]. simpl in H.
    injection H as Hc Hs. destruct (IH s Hs) as (s1 & s2 & -> & <- & <-).
    exists (String d s1), s2. simpl. now rewrite Hc.
Qed.

(** Some substring of [text] is [query] up to letter case. *)
Definition occurs_ignoring_case (query text : string) : Prop :=
  exists pre mid post,
    text = pre ++ mid ++ post /\ GenreFacts.eq_ignore_case mid query = true.

Lemma contains_lower (query text : string) :
  contains (lower query) (lower text) = true <->
  occurs_ignoring_case query text.
Proof.
  rewrite contains_spec. split.
  - intros (pre & post & H).
    destruct (lower_split _ _ _ H) as (s1 & r & -> & <- & Hr).
    destruct (lower_split _ _ _ Hr) as (s2 & s3 & -> & Hmid & <-).
    exists s1, s2, s3. split; [reflexivity|].
    rewrite <- GenreFacts.lower_eq_ignore_case. now apply String.eqb_eq.
  - intros (pre & mid & post & -> & Hmid).
    rewrite <- GenreFacts.lower_eq_ignore_case in Hmid.
    apply String.eqb_eq in Hmid.
    exists (lower pre), (lower post). now rewrite !lower_app, Hmid.
Qed.

(** X12.  What [search_books] matches, the query, the title and the
    description being ASCII strings.  A book matches a query exactly when
    the query occurs, up to letter case, in its title or in its
    description, provided the description is there and not empty.  The
    empty query matches every book. *)
Theorem search_matches_substring_ignoring_case (query : string)
    (book : Schema.Book.t) :
  (is_ascii query = true ->
   is_ascii (Schema.Book.title book) = true ->
   (forall d, Schema.Book.description book = Some d -> is_ascii d = true) ->
   (Schema.search_match query book = true <->
    occurs_ignoring_case query (Schema.Book.title book)
    \/ exists d,
         Schema.Book.description book = Some d /\ d <> ""
         /\ occurs_ignoring_case query d))
  /\ Schema.search_match "" book = true.
Proof.
  split.
  - intros _ _ _.
    unfold Schema.search_match. rewrite orb_true_iff, contains_lower.
    destruct (Schema.Book.description book) as [d|].
    + rewrite andb_true_iff, negb_true_iff, contains_lower.
      split; intros [H|H]; try (now left); right.
      * destruct H as [Hd Ho]. exists d. apply String.eqb_neq in Hd.
        now repeat split.
      * destruct H as (d' & Hd' & Hne & Ho). injection Hd' as <-.
        split; [now apply String.eqb_neq|assumption].
    + split; intros [H|H]; try (now left); try discriminate H.
      destruct H as (d' & Hd' & _). discriminate Hd'.
  - unfold Schema.search_match. simpl. now destruct (Schema.Book.title book).
Qed.

Lemma search_matches_substring_ignoring_case_witness :
  (is_ascii "POTTER" = true
   /\ is_ascii "Harry Potter and the Chamber of Secrets" = true)
  /\ Schema.search_match "POTTER"
       (Schema.Book.mk 2 "Harry Potter and the Chamber of Secrets"
          "978-0439064873" 32.99%float (mk_datetime 1998 7 2) 1
          (Some "Fantasy") None) = true.
Proof.
  split; [split; reflexivity|].
  destruct (search_matches_substring_ignoring_case "POTTER"
              (Schema.Book.mk 2 "Harry Potter and the Chamber of Secrets"
                 "978-0439064873" 32.99%float (mk_datetime 1998 7 2) 1
                 (Some "Fantasy") None)) as (T & _).
  apply (T eq_refl eq_refl).
  - intros d H. discriminate H.
  - left. exists "Harry ", "Potter", " and the Chamber of Secrets".
    split; reflexivity.
Defined.

(** ** Limits and filters at the edges *)

Lemma in_firstn {A : Type} (n : nat) (l : list A) (x : A) :
  In x (firstn n l) -> In x l.
Proof.
  revert l; induction n as [|n IH]; intros [|y l]; simpl; try tauto.
  intros [->|H]; [now left|right; now apply IH].
Qed.

Lemma in_py_slice_to {A : Type} (l : list A) (n : Z) (x : A) :
  In x (py_slice_to l n) -> In x l.
Proof. unfold py_slice_to. destruct (0 <=? n); apply in_firstn. Qed.

Lemma in_apply_limit {A : Type} (limit : option Z) (l : list A) (x : A) :
  In x (Schema.apply_limit limit l) -> In x l.
Proof.
  unfold Schema.apply_limit. destruct limit as [n|]; [|tauto].
  destruct (Schema.truthy_int (Some n)); [apply in_py_slice_to|tauto].
Qed.

Lemma apply_limit_length {A : Type} (limit : option Z) (l : list A) :
  List.length (Schema.apply_limit limit l)
  = match limit with
    | None => List.length l
    | Some n =>
        if n =? 0 then List.length l
        else if 0 <? n then Nat.min (Z.to_nat n) (List.length l)
             else (List.length l - Z.to_nat (- n))%nat
    end.
Proof.
  unfold Schema.apply_limit, Schema.truthy_int, py_slice_to.
  destruct limit as [n|]; [|reflexivity].
  destruct (n =? 0) eqn:H0; simpl; [reflexivity|].
  apply Z.eqb_neq in H0.
  destruct (0 <=? n) eqn:Hle; destruct (0 <? n) eqn:Hlt;
    rewrite length_firstn; lia.
Qed.

Section Readers.

Variable get_all_authors : list Schema.Author.t.
Variable get_all_books : list Schema.Book.t.
Variable get_books_by_author : Z -> list Schema.Book.t.
Variable get_all_customers : list Schema.Customer.t.
Variable get_all_orders : list Schema.Order.t.
Variable get_orders_by_customer : Z -> list Schema.Order.t.

Lemma books_limited (limit author_id : option Z) (genre : option string) :
  Schema.books get_all_books get_books_by_author limit author_id genre
  = Schema.apply_limit limit
      (SchemaFacts.filtered_books get_all_books get_books_by_author author_id
         genre).
Proof.
  rewrite <- SchemaFacts.books_unlimited. unfold Schema.books.
  now rewrite SchemaFacts.apply_limit_none.
Qed.

Lemma orders_limited (limit customer_id : option Z) (status : option string) :
  Schema.orders get_all_orders get_orders_by_customer limit customer_id
    status
  = Schema.apply_limit limit
      (SchemaFacts.filtered_orders get_all_orders get_orders_by_customer
         customer_id status).
Proof.
  rewrite <- SchemaFacts.orders_unlimited. unfold Schema.orders.
  now rewrite SchemaFacts.apply_limit_none.
Qed.

(** X13.  How many elements a list query returns, counted against the
    whole filtered sequence: for [books] the books of the author given (all
    books when the id is 0 or left out) that have the genre given (any
    genre when it is empty or left out), for [orders] likewise by customer
    and status, for [authors] and [customers] all of them, for
    [search_books] the matching books.  Without a limit, or with limit 0,
    all of that sequence; with a limit n >= 1, at most n of them; with a
    negative limit -k, all but the last k.  When the limit is left out
    [search_books] returns at most 10 books. *)
Theorem list_query_lengths (limit author_id customer_id : option Z)
    (genre status : option string) (query : string) :
  let count (all : nat) : nat :=
    match limit with
    | None => all
    | Some n =>
        if n =? 0 then all
        else if 0 <? n then Nat.min (Z.to_nat n) all
             else (all - Z.to_nat (- n))%nat
    end in
  List.length
    (Schema.books get_all_books get_books_by_author limit author_id genre)
  = count (List.length
             (SchemaFacts.filtered_books get_all_books get_books_by_author
                author_id genre))
  /\ List.length (Schema.authors get_all_authors limit)
     = count (List.length get_all_authors)
  /\ List.length (Schema.customers get_all_customers limit)
     = count (List.length get_all_customers)
  /\ List.length
       (Schema.orders get_all_orders get_orders_by_customer limit
          customer_id status)
     = count (List.length
                (SchemaFacts.filtered_orders get_all_orders
                   get_orders_by_customer customer_id status))
  /\ List.length (Schema.search_books get_all_books query limit)
     = count (List.length (filter (Schema.search_match query) get_all_books))
  /\ (List.length (Schema.search_books_default get_all_books query)
      <= 10)%nat.
Proof.
  cbv zeta. rewrite books_limited, orders_limited.
  unfold Schema.authors, Schema.customers, Schema.search_books_default,
    Schema.search_books.
  rewrite !apply_limit_length. repeat split.
  change (10 =? 0) with false. change (0 <? 10) with true. cbv iota.
  change (Z.to_nat 10) with 10%nat. apply Nat.le_min_l.
Qed.

(** X14.  What [books] returns.  Without a limit it is exactly the whole
    filtered sequence: the books of the author when an author id other
    than 0 is given, all books otherwise, and of these, when a genre other
    than the empty string is given, those of exactly that genre, in order;
    with a limit it is that sequence cut by the limit, so every book
    returned is in it and, a genre being given, has that genre.  An author
    id of 0 and an empty genre filter nothing: they give what leaving the
    argument out gives, and both together give all books. *)
Theorem books_results_pass_the_filters (limit author_id : option Z)
    (genre : option string) :
  Schema.books get_all_books get_books_by_author None author_id genre
  = SchemaFacts.filtered_books get_all_books get_books_by_author author_id
      genre
  /\ Schema.books get_all_books get_books_by_author limit author_id genre
     = Schema.apply_limit limit
         (SchemaFacts.filtered_books get_all_books get_books_by_author
            author_id genre)
  /\ (forall book,
        In book
          (Schema.books get_all_books get_books_by_author limit author_id
             genre) ->
        In book
          (SchemaFacts.filtered_books get_all_books get_books_by_author
             author_id genre)
        /\ forall g, genre = Some g -> g <> "" ->
             Schema.Book.genre book = Some g)
  /\ Schema.books get_all_books get_books_by_author None (Some 0) genre
     = Schema.books get_all_books get_books_by_author None None genre
  /\ Schema.books get_all_books get_books_by_author None author_id (Some "")
     = Schema.books get_all_books get_books_by_author None author_id None
  /\ Schema.books get_all_books get_books_by_author None (Some 0) (Some "")
     = get_all_books
  /\ Schema.books get_all_books get_books_by_author None None None
     = get_all_books.
Proof.
  split; [apply SchemaFacts.books_unlimited|].
  split; [apply books_limited|].
  split; [|rewrite !SchemaFacts.books_unlimited; repeat split; reflexivity].
  intros book H. rewrite books_limited in H. apply in_apply_limit in H.
  split; [exact H|]. intros g -> Hg.
  unfold SchemaFacts.filtered_books in H.
  destruct (String.eqb g "") eqn:Hq.
  - apply String.eqb_eq in Hq. contradiction.
  - apply filter_In in H. destruct H as [_ Hgen].
    destruct (Schema.Book.genre book) as [x|]; [|discriminate Hgen].
    apply String.eqb_eq in Hgen. now subst.
Qed.

End Readers.

Lemma books_results_pass_the_filters_witness :
  exists book,
    In book
      (Schema.books SchemaFacts.sample_books
         SchemaFacts.sample_books_by_author (Some (-1)) (Some 1)
         (Some "Fantasy"))
    /\ In book
         (SchemaFacts.filtered_books SchemaFacts.sample_books
            SchemaFacts.sample_books_by_author (Some 1) (Some "Fantasy"))
    /\ Schema.Book.genre book = Some "Fantasy".
Proof.
  eexists. split; [simpl; left; reflexivity|].
  match goal with
  | |- In ?b _ /\ _ =>
      destruct (books_results_pass_the_filters SchemaFacts.sample_books
                  SchemaFacts.sample_books_by_author (Some (-1)) (Some 1)
                  (Some "Fantasy")) as (_ & _ & T & _);
      destruct (T b) as [Hsrc Hgen]; [simpl; left; reflexivity|]
  end.
  split; [exact Hsrc|]. apply (Hgen "Fantasy" eq_refl). discriminate.
Defined.

End SchemaLaws.

(** * The remaining methods of the two clients *)

(** ** client_examples/rest_client.py *)

Module RESTClientMethods.

Import RESTBookstoreClient.

Section Client.

Variable server : Request.t -> Response.t.
Variable base_url : string.
Variable format : json_value -> string.

Definition get_author_with_books (author_id : Z) : session json_value :=
  author_response <~
    session_get server (base_url ++ "/authors/" ++ str_of_int author_id) ;;
  author_data <~ lift (Response.json author_response) ;;
  books_response <~
    session_get server
      (base_url ++ "/books?author_id=" ++ str_of_int author_id) ;;
  books_data <~ lift (Response.json books_response) ;;
  sret (JDict [("author", author_data);
               ("books", books_data);
               ("total_requests", JInt 2);
               ("total_bytes",
                JInt (Py.len (Response.content author_response)
                      + Py.len (Response.content books_response)))]).

(** The loop of [search_books_with_authors], [for book in books_data]. *)
Fixpoint enrich_books (books enriched_books : list json_value) (c : totals)
  : session (list json_value * totals) :=
  match books with
  | [] => sret (enriched_books, c)
  | book :: rest =>
      author_id <~ lift (Py.getitem book "author_id") ;;
      author_response <~
        session_get server (base_url ++ "/authors/" ++ format author_id) ;;
      author_data <~ lift (Response.json author_response) ;;
      let c := count c author_response in
      enriched_book <~ lift (Py.copy book) ;;
      enriched_book <~ lift (Py.setitem enriched_book "author" author_data) ;;
      enrich_books rest (enriched_books ++ [enriched_book])%list c
  end.

Definition search_note : string :=
  "Received all book and author fields, even though we only needed title, price, and author name".

Definition search_books_with_authors (query : string) : session json_value :=
  let c := {| request_count := 0; total_bytes := 0 |} in
  books_response <~
    session_get server (base_url ++ "/books?search=" ++ query) ;;
  books_data <~ lift (Response.json books_response) ;;
  let c := count c books_response in
  books <~ lift (Py.iter books_data) ;;
  r <~ enrich_books books [] c ;;
  let '(enriched_books, c) := r in
  sret (JDict [("books", JList enriched_books);
               ("total_requests", JInt (request_count c));
               ("total_bytes", JInt (total_bytes c));
               ("note", JStr search_note)]).

End Client.

End RESTClientMethods.

(** ** client_examples/graphql_client.py *)

Module GraphQLClientMethods.

Definition search_query : string :=
  "query SearchBooksWithAuthors($searchQuery: String!) {
     searchBooks(query: $searchQuery, limit: 10) { title price
       author { name } } }".



Definition search_note : string :=
  "Received ONLY the fields requested: title, price, and author name".


Section Client.

Variable server : Request.t -> Response.t.
Variable base_url : string.

Definition search_books_with_authors (query_text : string)
  : session json_value :=
  response <~ session_post server base_url
    (JDict [("query", JStr search_query);
            ("variables", JDict [("searchQuery", JStr query_text)])]) ;;
  result <~ lift (Response.json response) ;;
  result <~ lift (Py.setitem result "total_requests" (JInt 1)) ;;
  result <~ lift (Py.setitem result "total_bytes"
                    (JInt (Py.len (Response.content response)))) ;;
  result <~ lift (Py.setitem result "note" (JStr search_note)) ;;
  sret result.


End Client.

End GraphQLClientMethods.

(** * Properties of the metrics the clients report *)

Module ClientLaws.

Import RESTBookstoreClient.

(** The value under a key of a bundle. *)
Definition field (v : json_value) (key : string) : option json_value :=
  match v with
  | JDict d => Py.dict_get d key
  | _ => None
  end.

Section REST.

Variable server : Request.t -> Response.t.
Variable base_url : string.
Variable format : json_value -> string.

Local Arguments String.append : simpl never.

(** The sizes of the answers to a sequence of requests, added up. *)
Definition bytes_of (sent : list Request.t) : Z :=
  fold_right (fun req total => Py.len (Response.content (server req)) + total)
    0 sent.

(** The totals [c'] account for the requests [sent] on top of [c]. *)
Definition accounts_for (c c' : totals) (sent : list Request.t) : Prop :=
  request_count c' = request_count c + Z.of_nat (List.length sent)
  /\ total_bytes c' = total_bytes c + bytes_of sent.

Lemma accounts_for_nil (c : totals) : accounts_for c c [].
Proof. unfold accounts_for. simpl. lia. Qed.

Lemma accounts_for_cons (c c' : totals) (req : Request.t)
    (sent : list Request.t) :
  accounts_for (count c (server req)) c' sent ->
  accounts_for c c' (req :: sent).
Proof.
  unfold accounts_for, count. simpl. intros [Hn Hb]. split; lia.
Qed.

Lemma bytes_of_cons (req : Request.t) (sent : list Request.t) :
  bytes_of (req :: sent)
  = Py.len (Response.content (server req)) + bytes_of sent.
Proof. reflexivity. Qed.

Lemma bytes_of_app (s1 s2 : list Request.t) :
  bytes_of (s1 ++ s2) = bytes_of s1 + bytes_of s2.
Proof.
  induction s1 as [|r s1 IH]; simpl; [reflexivity|].
  fold (bytes_of (s1 ++ s2)). fold (bytes_of s1). lia.
Qed.

Lemma accounts_for_app (c1 c2 c3 : totals) (s1 s2 : list Request.t) :
  accounts_for c1 c2 s1 -> accounts_for c2 c3 s2 ->
  accounts_for c1 c3 (s1 ++ s2).
Proof.
  unfold accounts_for. intros [Hn1 Hb1] [Hn2 Hb2].
  rewrite length_app, bytes_of_app. split; lia.
Qed.

Lemma enrich_items_accounts (items : list json_value) :
  forall enriched_items c log r c' log',
    enrich_items server base_url format items enriched_items c log
    = (Ok (r, c'), log') ->
    exists sent, log' = (log ++ sent)%list /\ accounts_for c c' sent.
Proof.
  induction items as [|item items IH]; intros acc c log r c' log' H.
  - simpl in H. injection H as _ <- <-. exists [].
    rewrite app_nil_r. split; [reflexivity|apply accounts_for_nil].
  - simpl in H. unfold sbind at 1, lift at 1 in H.
    destruct (Py.getitem item "book_id") as [book_id|e]; [|discriminate H].
    unfold sbind at 1, session_get, send in H.
    set (req := Request.mk "GET" (base_url ++ "/books/" ++ format book_id)
                  None) in *.
    unfold sbind at 1, lift at 1 in H.
    destruct (Response.json (server req)) as [book_data|e]; [|discriminate H].
    unfold sbind at 1, lift at 1 in H.
    destruct (Py.copy item) as [copy|e]; [|discriminate H].
    unfold sbind at 1, lift at 1 in H.
    destruct (Py.setitem copy "book" book_data) as [enriched|e];
      [|discriminate H].
    destruct (IH _ _ _ _ _ _ H) as (sent & -> & Hacc).
    exists (req :: sent). rewrite <- app_assoc. split; [reflexivity|].
    now apply accounts_for_cons.
Qed.

Lemma enrich_orders_accounts (orders : list json_value) :
  forall enriched_orders c log r c' log',
    enrich_orders server base_url format orders enriched_orders c log
    = (Ok (r, c'), log') ->
    exists sent, log' = (log ++ sent)%list /\ accounts_for c c' sent.
Proof.
  induction orders as [|order orders IH]; intros acc c log r c' log' H.
  - simpl in H. injection H as _ <- <-. exists [].
    rewrite app_nil_r. split; [reflexivity|apply accounts_for_nil].
  - simpl in H. unfold sbind at 1, lift at 1 in H.
    destruct (Py.copy order) as [copy|e]; [|discriminate H].
    unfold sbind at 1, lift at 1 in H.
    destruct (Py.getitem order "items") as [order_items|e];
      [|discriminate H].
    unfold sbind at 1, lift at 1 in H.
    destruct (Py.iter order_items) as [items|e]; [|discriminate H].
    unfold sbind at 1 in H.
    destruct (enrich_items server base_url format items [] c log)
      as [[[enriched_items c1]|e] log1] eqn:Hitems; [|discriminate H].
    destruct (enrich_items_accounts _ _ _ _ _ _ _ Hitems)
      as (sent1 & -> & Hacc1).
    unfold sbind at 1, lift at 1 in H.
    destruct (Py.setitem copy "items" (JList enriched_items))
      as [enriched|e]; [|discriminate H].
    destruct (IH _ _ _ _ _ _ H) as (sent2 & -> & Hacc2).
    exists (sent1 ++ sent2)%list. rewrite app_assoc.
    split; [reflexivity|]. exact (accounts_for_app _ _ _ _ _ Hacc1 Hacc2).
Qed.

Lemma enrich_books_accounts (books : list json_value) :
  forall enriched_books c log r c' log',
    RESTClientMethods.enrich_books server base_url format books
      enriched_books c log = (Ok (r, c'), log') ->
    exists sent, log' = (log ++ sent)%list /\ accounts_for c c' sent.
Proof.
  induction books as [|book books IH]; intros acc c log r c' log' H.
  - simpl in H. injection H as _ <- <-. exists [].
    rewrite app_nil_r. split; [reflexivity|apply accounts_for_nil].
  - simpl in H. unfold sbind at 1, lift at 1 in H.
    destruct (Py.getitem book "author_id") as [author_id|e];
      [|discriminate H].
    unfold sbind at 1, session_get, send in H.
    set (req := Request.mk "GET"
                  (base_url ++ "/authors/" ++ format author_id) None) in *.
    unfold sbind at 1, lift at 1 in H.
    destruct (Response.json (server req)) as [author_data|e];
      [|discriminate H].
    unfold sbind at 1, lift at 1 in H.
    destruct (Py.copy book) as [copy|e]; [|discriminate H].
    unfold sbind at 1, lift at 1 in H.
    destruct (Py.setitem copy "author" author_data) as [enriched|e];
      [|discriminate H].
    destruct (IH _ _ _ _ _ _ H) as (sent & -> & Hacc).
    exists (req :: sent). rewrite <- app_assoc. split; [reflexivity|].
    now apply accounts_for_cons.
Qed.

(** X15.  The metrics of a Strategy A bundle describe the traffic.
    Whenever one of the three methods returns a bundle, its
    [total_requests] is the number of requests the call sent and its
    [total_bytes] is the sum of the sizes of the answers to exactly those
    requests. *)
Theorem rest_metrics_match_traffic (id : Z) (query : string)
    (log log' : list Request.t) (bundle : json_value) :
  get_customer_order_summary server base_url format id log
  = (Ok bundle, log')
  \/ RESTClientMethods.get_author_with_books server base_url id log
     = (Ok bundle, log')
  \/ RESTClientMethods.search_books_with_authors server base_url format
       query log = (Ok bundle, log') ->
  exists sent,
    log' = (log ++ sent)%list
    /\ field bundle "total_requests"
       = Some (JInt (Z.of_nat (List.length sent)))
    /\ field bundle "total_bytes" = Some (JInt (bytes_of sent)).
Proof.
  intros [H|[H|H]].
  - unfold get_customer_order_summary in H.
    unfold sbind at 1, session_get, send in H.
    set (req1 := Request.mk "GET"
                   (base_url ++ "/customers/" ++ str_of_int id) None) in *.
    unfold sbind at 1, lift at 1 in H.
    destruct (Response.json (server req1)) as [customer_data|e];
      [|discriminate H].
    unfold sbind at 1 in H.
    set (req2 := Request.mk "GET"
                   (base_url ++ "/orders?customer_id=" ++ str_of_int id)
                   None) in *.
    unfold sbind at 1, lift at 1 in H.
    destruct (Response.json (server req2)) as [orders_data|e];
      [|discriminate H].
    unfold sbind at 1, lift at 1 in H.
    destruct (Py.iter orders_data) as [orders|e]; [|discriminate H].
    unfold sbind at 1 in H.
    match type of H with
    | context [enrich_orders _ _ _ _ _ ?c ?l] =>
        destruct (enrich_orders server base_url format orders [] c l)
          as [[[enriched c']|e] log1] eqn:Hloop; [|discriminate H];
        destruct (enrich_orders_accounts _ _ _ _ _ _ _ Hloop)
          as (sent & -> & Hn & Hb)
    end.
    unfold sret in H. injection H as <- <-.
    exists (req1 :: req2 :: sent). rewrite <- !app_assoc.
    split; [reflexivity|]. simpl field. unfold count in Hn, Hb.
    cbn [request_count total_bytes] in Hn, Hb. rewrite Hn, Hb.
    rewrite !bytes_of_cons. cbn [List.length]. split; do 2 f_equal; lia.
  - unfold RESTClientMethods.get_author_with_books in H.
    unfold sbind at 1, session_get, send in H.
    set (req1 := Request.mk "GET"
                   (base_url ++ "/authors/" ++ str_of_int id) None) in *.
    unfold sbind at 1, lift at 1 in H.
    destruct (Response.json (server req1)) as [author_data|e];
      [|discriminate H].
    unfold sbind at 1 in H.
    set (req2 := Request.mk "GET"
                   (base_url ++ "/books?author_id=" ++ str_of_int id)
                   None) in *.
    unfold sbind at 1, lift at 1 in H.
    destruct (Response.json (server req2)) as [books_data|e];
      [|discriminate H].
    unfold sret in H. injection H as <- <-.
    exists [req1; req2]. rewrite <- app_assoc.
    split; [reflexivity|]. simpl field. rewrite !bytes_of_cons.
    cbn [List.length bytes_of fold_right]. split; do 2 f_equal; lia.
  - unfold RESTClientMethods.search_books_with_authors in H.
    unfold sbind at 1, session_get, send in H.
    set (req1 := Request.mk "GET" (base_url ++ "/books?search=" ++ query)
                   None) in *.
    unfold sbind at 1, lift at 1 in H.
    destruct (Response.json (server req1)) as [books_data|e];
      [|discriminate H].
    unfold sbind at 1, lift at 1 in H.
    destruct (Py.iter books_data) as [books|e]; [|discriminate H].
    unfold sbind at 1 in H.
    match type of H with
    | context [RESTClientMethods.enrich_books _ _ _ _ _ ?c ?l] =>
        destruct (RESTClientMethods.enrich_books server base_url format
                    books [] c l)
          as [[[enriched c']|e] log1] eqn:Hloop; [|discriminate H];
        destruct (enrich_books_accounts _ _ _ _ _ _ _ Hloop)
          as (sent & -> & Hn & Hb)
    end.
    unfold sret in H. injection H as <- <-.
    exists (req1 :: sent). rewrite <- app_assoc.
    split; [reflexivity|]. simpl field. unfold count in Hn, Hb.
    cbn [request_count total_bytes] in Hn, Hb. rewrite Hn, Hb.
    rewrite !bytes_of_cons. cbn [List.length]. split; do 2 f_equal; lia.
Qed.

(** ** The search with authors *)

Definition search_request (query : string) : Request.t :=
  Request.mk "GET" (base_url ++ "/books?search=" ++ query) None.

Definition author_request (author_id : json_value) : Request.t :=
  Request.mk "GET" (base_url ++ "/authors/" ++ format author_id) None.

(** [enriched] is [book] with, under [author], the decoded answer to the
    request for the author the book names. *)
Definition enriched_from (book enriched : json_value) : Prop :=
  exists d author_id author_data,
    book = JDict d
    /\ Py.dict_get d "author_id" = Some author_id
    /\ Response.json (server (author_request author_id)) = Ok author_data
    /\ enriched = JDict (Py.dict_set d "author" author_data).

Definition book_ok (book : json_value) : bool :=
  match book with
  | JDict d =>
      match Py.dict_get d "author_id" with
      | Some _ => true
      | None => false
      end
  | _ => false
  end.

Lemma enrich_books_run (books : list json_value) :
  ClientFacts.always_json server ->
  forallb book_ok books = true ->
  forall acc c log,
  exists enriched c' log',
    RESTClientMethods.enrich_books server base_url format books acc c log
    = (Ok ((acc ++ enriched)%list, c'), log')
    /\ Forall2 enriched_from books enriched
    /\ request_count c' = request_count c + Z.of_nat (List.length books)
    /\ List.length log' = (List.length log + List.length books)%nat.
Proof.
  intros Hjson. induction books as [|book books IH]; intros Hok acc c log.
  - exists [], c, log. simpl. rewrite app_nil_r.
    repeat split; try constructor; lia.
  - simpl in Hok. apply andb_true_iff in Hok. destruct Hok as [Hbook Hrest].
    destruct book as [| | | | | |d]; try discriminate Hbook.
    simpl in Hbook.
    destruct (Py.dict_get d "author_id") as [author_id|] eqn:Hid;
      [|discriminate Hbook].
    destruct (Hjson (author_request author_id)) as (author_data & Hdata).
    destruct (IH Hrest
                (acc ++ [JDict (Py.dict_set d "author" author_data)])%list
                (count c (server (author_request author_id)))
                (log ++ [author_request author_id])%list)
      as (enriched & c' & log' & Hrun & Hall & Hcount & Hlog).
    exists (JDict (Py.dict_set d "author" author_data) :: enriched), c', log'.
    split; [|split; [|split]].
    + simpl. unfold sbind, lift, session_get, send. simpl. rewrite Hid.
      fold (author_request author_id). rewrite Hdata. simpl.
      rewrite Hrun. now rewrite <- app_assoc.
    + constructor; [|assumption]. now exists d, author_id, author_data.
    + rewrite Hcount. simpl. lia.
    + rewrite Hlog, length_app. simpl. lia.
Qed.

(** X16.  The search with authors is one request plus one per book found.
    When every answer decodes and the search answer is a list of books that
    name their author, the method returns a bundle whose [total_requests]
    is 1 plus the number of books, two books of the same author costing two
    author requests; that many requests are sent; and the bundle lists, in
    order, each book with the decoded answer for its author under
    [author]. *)
Theorem rest_search_is_one_plus_books (query : string)
    (books : list json_value) (log : list Request.t) :
  ClientFacts.always_json server ->
  Response.json (server (search_request query)) = Ok (JList books) ->
  forallb book_ok books = true ->
  exists enriched log',
    RESTClientMethods.search_books_with_authors server base_url format query
      log
    = (Ok (JDict
             [("books", JList enriched);
              ("total_requests", JInt (1 + Z.of_nat (List.length books)));
              ("total_bytes",
               JInt (bytes_of (skipn (List.length log) log')));
              ("note", JStr RESTClientMethods.search_note)]), log')
    /\ Forall2 enriched_from books enriched
    /\ List.length log' = (List.length log + 1 + List.length books)%nat.
Proof.
  intros Hjson Hbooks Hok.
  set (c1 := count {| request_count := 0; total_bytes := 0 |}
               (server (search_request query))).
  destruct (enrich_books_run books Hjson Hok [] c1
              (log ++ [search_request query])%list)
    as (enriched & c' & log' & Hrun & Hall & Hcount & Hlog).
  destruct (enrich_books_accounts _ _ _ _ _ _ _ Hrun)
    as (sent & Hsent & _ & Hbytes).
  assert (Hn : request_count c' = 1 + Z.of_nat (List.length books)).
  { rewrite Hcount. unfold c1, count. cbn [request_count]. lia. }
  assert (Hb : total_bytes c' = bytes_of (skipn (List.length log) log')).
  { rewrite Hbytes, Hsent, <- app_assoc.
    rewrite skipn_app, skipn_all, Nat.sub_diag.
    cbn [skipn app]. rewrite bytes_of_cons.
    unfold c1, count. cbn [total_bytes]. lia. }
  exists enriched, log'. split; [|split].
  - unfold RESTClientMethods.search_books_with_authors, sbind, lift,
      session_get, send, sret.
    fold (search_request query). rewrite Hbooks. simpl. fold c1.
    rewrite Hrun. cbn [app]. now rewrite Hn, Hb.
  - exact Hall.
  - rewrite Hlog, length_app. simpl. lia.
Qed.

(** ** Answers the order summary cannot use *)

Lemma enrich_orders_missing_items (good rest : list json_value)
    (bad : list (string * json_value)) :
  ClientFacts.always_json server ->
  orders_ok good = true ->
  Py.dict_get bad "items" = None ->
  forall acc c log,
  exists log',
    enrich_orders server base_url format (good ++ JDict bad :: rest) acc c log
    = (Raise (KeyError "items"), log')
    /\ List.length log'
       = (List.length log + List.length (all_items good))%nat.
Proof.
  intros Hjson Hgood Hbad. unfold orders_ok in Hgood.
  induction good as [|order good IH]; intros acc c log.
  - exists log. simpl. unfold sbind, lift. simpl. rewrite Hbad.
    split; [reflexivity|lia].
  - simpl in Hgood. apply andb_true_iff in Hgood.
    destruct Hgood as [Horder Hrest].
    destruct order as [| | | | | |d]; try discriminate Horder.
    simpl in Horder.
    destruct (Py.dict_get d "items") as [[| | | | |items|]|] eqn:Hitems;
      try discriminate Horder.
    destruct (ClientFacts.enrich_items_count server base_url format items
                Hjson Horder [] c log)
      as (enriched_items & c1 & log1 & Hrun1 & _ & Hlog1).
    destruct (IH Hrest
                (acc ++ [JDict (Py.dict_set d "items" (JList enriched_items))])%list
                c1 log1) as (log' & Hrun & Hlog).
    exists log'. split.
    + simpl. unfold sbind at 1 2 3, lift. simpl. rewrite Hitems. simpl.
      unfold sbind at 1. rewrite Hrun1. unfold sbind at 1. simpl.
      exact Hrun.
    + rewrite Hlog, Hlog1. unfold all_items. simpl.
      rewrite Hitems, length_app. lia.
Qed.

(** X17.  What the order summary does with an orders answer it cannot
    use, every answer being JSON.  When the answer is a dictionary that is
    not empty, an error body for instance, the method raises
    AttributeError after its first two requests.  When an order of the
    list has no [items], the method raises KeyError for that key; the
    requests for the items of the orders before it have been sent, and no
    bundle is returned. *)
Theorem rest_summary_raises_on_unusable_orders (customer_id : Z)
    (log : list Request.t) :
  ClientFacts.always_json server ->
  (forall k v d,
     Response.json (server (ClientFacts.orders_request base_url customer_id))
     = Ok (JDict ((k, v) :: d)) ->
     exists log',
       get_customer_order_summary server base_url format customer_id log
       = (Raise AttributeError, log')
       /\ List.length log' = (List.length log + 2)%nat)
  /\ (forall good bad rest,
        Response.json
          (server (ClientFacts.orders_request base_url customer_id))
        = Ok (JList (good ++ JDict bad :: rest)) ->
        orders_ok good = true ->
        Py.dict_get bad "items" = None ->
        exists log',
          get_customer_order_summary server base_url format customer_id log
          = (Raise (KeyError "items"), log')
          /\ List.length log'
             = (List.length log + 2 + List.length (all_items good))%nat).
Proof.
  intros Hjson.
  set (customer_req :=
         Request.mk "GET"
           (base_url ++ "/customers/" ++ str_of_int customer_id) None).
  destruct (Hjson customer_req) as (customer_data & Hcustomer).
  split.
  - intros k v d Horders. eexists. split.
    + unfold get_customer_order_summary, sbind, lift, session_get, send,
        sret.
      fold customer_req. rewrite Hcustomer.
      fold (ClientFacts.orders_request base_url customer_id).
      rewrite Horders. simpl. reflexivity.
    + rewrite !length_app. simpl. lia.
  - intros good bad rest Horders Hgood Hbad.
    set (c2 := count (count {| request_count := 0; total_bytes := 0 |}
                        (server customer_req))
                 (server (ClientFacts.orders_request base_url customer_id))).
    destruct (enrich_orders_missing_items good rest bad Hjson Hgood Hbad []
                c2
                ((log ++ [customer_req])
                 ++ [ClientFacts.orders_request base_url customer_id])%list)
      as (log' & Hrun & Hlog).
    exists log'. split.
    + unfold get_customer_order_summary, sbind, lift, session_get, send,
        sret.
      fold customer_req. rewrite Hcustomer.
      fold (ClientFacts.orders_request base_url customer_id).
      rewrite Horders. simpl. fold c2. now rewrite Hrun.
    + rewrite Hlog, !length_app. simpl. lia.
Qed.

End REST.

(** A server for the search: two books that name the same author. *)
Definition shared_author_books : list json_value :=
  [ JDict [("title", JStr "The Shining"); ("author_id", JInt 4)];
    JDict [("title", JStr "It"); ("author_id", JInt 4)] ].

Definition search_server (req : Request.t) : Response.t :=
  if String.eqb (Request.url req) "http://localhost:8000/books?search=king"
  then Response.mk "[{},{}]" (Ok (JList shared_author_books))
  else Response.mk "{}" (Ok (JDict [("name", JStr "Stephen King")])).

Lemma search_server_json : ClientFacts.always_json search_server.
Proof.
  intros req. unfold search_server.
  destruct (String.eqb (Request.url req) _); eexists; reflexivity.
Qed.

Lemma rest_search_is_one_plus_books_witness :
  (ClientFacts.always_json search_server
   /\ forallb book_ok shared_author_books = true)
  /\ exists bundle log',
       RESTClientMethods.search_books_with_authors search_server
         "http://localhost:8000" ClientFacts.plain_format "king" []
       = (Ok bundle, log')
       /\ field bundle "total_requests" = Some (JInt 3)
       /\ List.length log' = 3%nat.
Proof.
  assert (Hok : forallb book_ok shared_author_books = true) by reflexivity.
  split; [split; [exact search_server_json|exact Hok]|].
  destruct (rest_search_is_one_plus_books search_server
              "http://localhost:8000" ClientFacts.plain_format "king"
              shared_author_books [] search_server_json eq_refl Hok)
    as (enriched & log' & Hrun & _ & Hlog).
  eexists; exists log'. split; [exact Hrun|]. split; [reflexivity|exact Hlog].
Defined.

Lemma rest_metrics_match_traffic_witness :
  exists bundle log' sent,
    get_customer_order_summary ClientFacts.repeated_server
      "http://localhost:8000" ClientFacts.plain_format 1 [] = (Ok bundle, log')
    /\ log' = ([] ++ sent)%list
    /\ field bundle "total_requests"
       = Some (JInt (Z.of_nat (List.length sent)))
    /\ field bundle "total_bytes"
       = Some (JInt (bytes_of ClientFacts.repeated_server sent)).
Proof.
  assert (Hex : exists bundle log',
             get_customer_order_summary ClientFacts.repeated_server
               "http://localhost:8000" ClientFacts.plain_format 1 []
             = (Ok bundle, log'))
    by (eexists; eexists; vm_compute; reflexivity).
  destruct Hex as (bundle & log' & Hrun).
  destruct (rest_metrics_match_traffic ClientFacts.repeated_server
              "http://localhost:8000" ClientFacts.plain_format 1 "" [] log'
              bundle (or_introl Hrun)) as (sent & Hl & Hn & Hb).
  exists bundle, log', sent. repeat split; assumption.
Defined.

(** A server that knows no route: every answer is an error body. *)
Definition not_found_server (req : Request.t) : Response.t :=
  Response.mk "{}" (Ok (JDict [("error", JStr "Endpoint not found")])).

Lemma rest_summary_raises_on_unusable_orders_witness :
  ClientFacts.always_json not_found_server
  /\ exists log',
       get_customer_order_summary not_found_server "http://localhost:8000"
         ClientFacts.plain_format 1 [] = (Raise AttributeError, log')
       /\ List.length log' = 2%nat.
Proof.
  assert (Hjson : ClientFacts.always_json not_found_server)
    by (intros req; eexists; reflexivity).
  split; [exact Hjson|].
  destruct (rest_summary_raises_on_unusable_orders not_found_server
              "http://localhost:8000" ClientFacts.plain_format 1 [] Hjson)
    as (Tdict & _).
  exact (Tdict "error" (JStr "Endpoint not found") [] eq_refl).
Defined.

Section GraphQL.

Variable server : Request.t -> Response.t.
Variable base_url : string.

Definition search_request_of (query_text : string) : Request.t :=
  Request.mk "POST" base_url
    (Some (JDict
             [("query", JStr GraphQLClientMethods.search_query);
              ("variables", JDict [("searchQuery", JStr query_text)])])).



(** X18.  A Strategy B bundle is the answer of the server plus the
    metrics.  Whenever one of the three single-request methods returns a
    bundle, the server answered the one request sent with a JSON object;
    every key of that object other than the metric keys (and [note] for
    the search) is in the bundle with the same value; [total_bytes] is the
    size of that one answer; and a [total_requests] the server may have
    sent is replaced by 1. *)
Theorem graphql_bundle_is_answer_plus_metrics (id : Z) (query_text : string)
    (log log' : list Request.t) (bundle : json_value) :
  (GraphQLBookstoreClient.get_author_with_books server base_url id log
   = (Ok bundle, log') ->
   exists d,
     Response.json (server (ClientFacts.author_request base_url id))
     = Ok (JDict d)
     /\ log' = (log ++ [ClientFacts.author_request base_url id])%list
     /\ (forall k, k <> "total_requests" -> k <> "total_bytes" ->
           field bundle k = Py.dict_get d k)
     /\ field bundle "total_requests" = Some (JInt 1)
     /\ field bundle "total_bytes"
        = Some (JInt (Py.len (Response.content
                                (server (ClientFacts.author_request base_url
                                           id))))))
  /\ (GraphQLBookstoreClient.get_customer_order_summary server base_url id
        log = (Ok bundle, log') ->
      exists d,
        Response.json (server (ClientFacts.customer_request base_url id))
        = Ok (JDict d)
        /\ log' = (log ++ [ClientFacts.customer_request base_url id])%list
        /\ (forall k, k <> "total_requests" -> k <> "total_bytes" ->
              field bundle k = Py.dict_get d k)
        /\ field bundle "total_requests" = Some (JInt 1)
        /\ field bundle "total_bytes"
           = Some (JInt (Py.len (Response.content
                                   (server (ClientFacts.customer_request
                                              base_url id))))))
  /\ (GraphQLClientMethods.search_books_with_authors server base_url
        query_text log = (Ok bundle, log') ->
      exists d,
        Response.json (server (search_request_of query_text)) = Ok (JDict d)
        /\ log' = (log ++ [search_request_of query_text])%list
        /\ (forall k, k <> "total_requests" -> k <> "total_bytes" ->
              k <> "note" -> field bundle k = Py.dict_get d k)
        /\ field bundle "total_requests" = Some (JInt 1)
        /\ field bundle "total_bytes"
           = Some (JInt (Py.len (Response.content
                                   (server (search_request_of query_text)))))
        /\ field bundle "note"
           = Some (JStr GraphQLClientMethods.search_note)).
Proof.
  split; [|split].
  - unfold GraphQLBookstoreClient.get_author_with_books, session_post, send,
      sbind.
    fold (ClientFacts.author_request base_url id).
    rewrite ClientFacts.with_metrics_run.
    destruct (Response.json (server (ClientFacts.author_request base_url id)))
      as [[| | | | | |d]|e]; intros H; inversion H; subst.
    exists d. split; [reflexivity|]. split; [reflexivity|]. simpl.
    split; [|split].
    + intros k H1 H2. now rewrite !ClientFacts.dict_get_set_other.
    + rewrite ClientFacts.dict_get_set_other by discriminate.
      apply ClientFacts.dict_get_set_same.
    + apply ClientFacts.dict_get_set_same.
  - unfold GraphQLBookstoreClient.get_customer_order_summary, session_post,
      send, sbind.
    fold (ClientFacts.customer_request base_url id).
    rewrite ClientFacts.with_metrics_run.
    destruct (Response.json
                (server (ClientFacts.customer_request base_url id)))
      as [[| | | | | |d]|e]; intros H; inversion H; subst.
    exists d. split; [reflexivity|]. split; [reflexivity|]. simpl.
    split; [|split].
    + intros k H1 H2. now rewrite !ClientFacts.dict_get_set_other.
    + rewrite ClientFacts.dict_get_set_other by discriminate.
      apply ClientFacts.dict_get_set_same.
    + apply ClientFacts.dict_get_set_same.
  - unfold GraphQLClientMethods.search_books_with_authors, session_post,
      send, sbind, lift, sret.
    fold (search_request_of query_text).
    destruct (Response.json (server (search_request_of query_text)))
      as [[| | | | | |d]|e]; simpl; intros H; inversion H; subst.
    exists d. split; [reflexivity|]. split; [reflexivity|]. simpl.
    split; [|split; [|split]].
    + intros k H1 H2 H3. now rewrite !ClientFacts.dict_get_set_other.
    + rewrite !ClientFacts.dict_get_set_other by discriminate.
      apply ClientFacts.dict_get_set_same.
    + rewrite ClientFacts.dict_get_set_other by discriminate.
      apply ClientFacts.dict_get_set_same.
    + apply ClientFacts.dict_get_set_same.
Qed.


End GraphQL.

Lemma graphql_bundle_is_answer_plus_metrics_witness :
  exists bundle log',
    GraphQLBookstoreClient.get_author_with_books ClientFacts.constant_server
      "http://localhost:8001/graphql" 1 [] = (Ok bundle, log')
    /\ field bundle "data" = Some JNull
    /\ field bundle "total_bytes" = Some (JInt 2).
Proof.
  assert (Hex : exists bundle log',
             GraphQLBookstoreClient.get_author_with_books
               ClientFacts.constant_server "http://localhost:8001/graphql" 1
               [] = (Ok bundle, log'))
    by (eexists; eexists; vm_compute; reflexivity).
  destruct Hex as (bundle & log' & Hrun). exists bundle, log'.
  split; [exact Hrun|].
  destruct (graphql_bundle_is_answer_plus_metrics ClientFacts.constant_server
              "http://localhost:8001/graphql" 1 "" [] log' bundle)
    as (T & _).
  destruct (T Hrun) as (d & Hd & _ & Hkeys & _ & Hbytes).
  split; [|exact Hbytes].
  rewrite Hkeys by discriminate. injection Hd as <-. reflexivity.
Defined.


End ClientLaws.

(** * The genre route *)

Module GenreRouteLaws.

Import MockDatabase.

Lemma filter_none {A : Type} (f : A -> bool) (l : list A) :
  (forall x, In x l -> f x = false) -> filter f l = [].
Proof.
  induction l as [|x l IH]; simpl; [reflexivity|]. intros H.
  rewrite (H x (or_introl eq_refl)). apply IH. intros y Hy. apply H.
  now right.
Qed.

(** The genres of all books of the store are ASCII strings. *)
Definition ascii_genres (db : t) : Prop :=
  forall book, In book (books db) -> is_ascii (Book.genre book) = true.

(** X20.  The route of books by genre, the genre asked for and the genres
    in the store being ASCII strings.  It answers 200 with the dictionaries
    of the books whose genre is the one asked for up to letter case, in the
    order of the store; two spellings of a genre that differ only in case
    get the same answer; a genre no book has gets an empty list, not a
    404. *)
Theorem genre_route_ignores_case (db : t) (genre : string) :
  is_ascii genre = true ->
  ascii_genres db ->
  RestRoutes.get_books_by_genre db genre
  = (JList (map (ToDict.book_to_dict false None)
              (filter (fun book =>
                         GenreFacts.eq_ignore_case (Book.genre book) genre)
                 (books db))), 200)
  /\ (forall genre',
        is_ascii genre' = true ->
        GenreFacts.eq_ignore_case genre' genre = true ->
        RestRoutes.get_books_by_genre db genre'
        = RestRoutes.get_books_by_genre db genre)
  /\ ((forall book, In book (books db) ->
         GenreFacts.eq_ignore_case (Book.genre book) genre = false) ->
      RestRoutes.get_books_by_genre db genre = (JList [], 200)).
Proof.
  intros _ _.
  destruct (GenreFacts.get_books_by_genre_ignores_case db genre) as [E _].
  unfold RestRoutes.get_books_by_genre. rewrite E. split; [reflexivity|].
  split.
  - intros genre' _ Hsame.
    rewrite <- GenreFacts.lower_eq_ignore_case in Hsame.
    apply String.eqb_eq in Hsame. rewrite <- E.
    unfold get_books_by_genre. now rewrite Hsame.
  - intros Hnone.
    assert (Hnil : filter (fun book =>
                             GenreFacts.eq_ignore_case (Book.genre book)
                               genre) (books db) = []).
    { now apply filter_none. }
    now rewrite Hnil.
Qed.

Lemma ascii_genres_seed : ascii_genres _init_data.
Proof.
  intros book Hin. simpl in Hin.
  repeat (destruct Hin as [<-|Hin]; [reflexivity|]). contradiction.
Qed.

Lemma genre_route_ignores_case_witness :
  (is_ascii "horror" = true /\ ascii_genres _init_data
   /\ is_ascii "HORROR" = true
   /\ GenreFacts.eq_ignore_case "HORROR" "horror" = true)
  /\ RestRoutes.get_books_by_genre _init_data "HORROR"
     = RestRoutes.get_books_by_genre _init_data "horror".
Proof.
  split; [repeat split; try reflexivity; exact ascii_genres_seed|].
  exact (proj1 (proj2 (genre_route_ignores_case _init_data "horror" eq_refl
                         ascii_genres_seed))
           "HORROR" eq_refl eq_refl).
Defined.

End GenreRouteLaws.
